(** * openrefine-client: the command line interface and the client library

    Part I embeds [google/refine/__main__.py]: the namespace produced by
    the argument parser, the resolution of [--project_id] and the chain of
    [if]/[elif] that selects the verb of [google.refine.cli] to call.

    Part II models the client library and the remote service it talks to,
    which the test-suite [google/test/test_refine.py] exercises. *)

From Stdlib Require Import ZArith Ascii String.
From stdpp Require Import base option list strings gmap fin_maps pretty.

Local Open Scope string_scope.
Local Open Scope list_scope.

(** ** Python values that travel through [main] *)

Module Py.

(** The values an attribute of the parsed namespace can hold: [None], a
    [str], an [int] (arguments declared with [type=int]), a [bool], or a
    list (arguments declared with [action='append']). *)
#[local] Set Warnings "-register-all".
Inductive pyval : Type :=
| PyNone
| PyStr (s : string)
| PyInt (z : Z)
| PyBool (b : bool)
| PyList (l : list pyval).

(** [v is not None] *)
Definition is_not_None (v : pyval) : bool :=
  match v with PyNone => false | _ => true end.

(** [v == s] for a string literal [s]: only a [str] equals a [str]. *)
Definition eq_str (v : pyval) (s : string) : bool :=
  match v with PyStr t => String.eqb t s | _ => false end.

(** [v in [s1, s2]] for a list of two string literals. *)
Definition in_strs (v : pyval) (l : list string) : bool :=
  existsb (eq_str v) l.

(** Truth value of an attribute that is [None] or a [str]. *)
Definition truthy (v : option string) : bool :=
  match v with
  | None => false
  | Some s => negb (String.eqb s "")
  end.

Definition is_digit (c : ascii) : bool :=
  (48 <=? nat_of_ascii c)%nat && (nat_of_ascii c <=? 57)%nat.

Fixpoint all_digits (s : string) : bool :=
  match s with
  | EmptyString => true
  | String c s' => is_digit c && all_digits s'
  end.

(** [str.isdigit]: at least one character, and all of them digits.
    Strings are sequences of bytes here, so the digits are '0'..'9'. *)
Definition isdigit (s : string) : bool :=
  match s with
  | EmptyString => false
  | _ => all_digits s
  end.

Definition of_str (v : option string) : pyval :=
  match v with None => PyNone | Some s => PyStr s end.

Definition of_int (v : option Z) : pyval :=
  match v with None => PyNone | Some z => PyInt z end.

Definition of_ints (v : option (list Z)) : pyval :=
  match v with None => PyNone | Some l => PyList (map PyInt l) end.

Definition of_strs (v : option (list string)) : pyval :=
  match v with None => PyNone | Some l => PyList (map PyStr l) end.

(** A [dict] built from its items one by one: a later item with the same
    key replaces the earlier one. [dict_update d items] is [d.update]. *)
Definition dict_update {V} (d : gmap string V) (items : list (string * V))
  : gmap string V :=
  foldl (fun m kv => <[kv.1 := kv.2]> m) d items.

Definition dict_of {V} (items : list (string * V)) : gmap string V :=
  dict_update ∅ items.

End Py.

Import Py.

(** ** Part I: [google/refine/__main__.py] *)

Module Main.

(** *** The parsed namespace

    [parser.parse_args()] returns a namespace with one attribute per
    declared argument. Arguments with [action='store_true'] hold a bool,
    those with [type=int] an int or [None], those with [action='append']
    a list or [None], the others a string or [None]. The fields carry the
    [dest] of the argument behind the prefix [opt_]. *)
Record Options : Type := {
  (* Connection options *)
  opt_host : option string;
  opt_port : option string;
  (* Commands *)
  opt_create : option string;
  opt_list : bool;
  opt_download : option string;
  (* Commands with argument --project_id *)
  opt_project_id : option string;
  opt_delete : bool;
  opt_apply : option string;
  opt_export : bool;
  opt_output : option string;
  opt_template : option string;
  opt_info : bool;
  (* General options *)
  opt_file_format : option string;
  (* Create options *)
  opt_columnWidths : option (list Z);
  opt_encoding : option string;
  opt_guessCellValueTypes : option string;
  opt_headerLines : option Z;
  opt_ignoreLines : option Z;
  opt_includeFileSources : option string;
  opt_limit : option Z;
  opt_linesPerRow : option Z;
  opt_processQuotes : option string;
  opt_projectName : option string;
  opt_projectTags : option (list string);
  opt_recordPath : option (list string);
  opt_separator : option string;
  opt_sheets : option (list Z);
  opt_skipDataLines : option Z;
  opt_storeBlankCellsAsNulls : option string;
  opt_storeBlankRows : option string;
  opt_storeEmptyStrings : option string;
  opt_trimStrings : option string;
  (* Templating options *)
  opt_mode : option string;
  opt_prefix : option string;
  opt_rowSeparator : option string;
  opt_suffix : option string;
  opt_filterQuery : option string;
  opt_filterColumn : option string;
  opt_facets : option string;
  opt_splitToFiles : option string;
  opt_suffixById : option string
}.

(** The namespace of an invocation without any argument. *)
Definition no_options : Options :=
  Build_Options None None None false None None false None false None None
    false None None None None None None None None None None None None None
    None None None None None None None None None None None None None None
    None None.

(** An action of an argument group: its [dest], and the attribute of that
    name read off the namespace, [getattr(options, arg.dest)]. *)
Record action : Type := Action {
  dest : string;
  getattr : Options -> pyval
}.

(** [CreateGroup._group_actions], in the order of the [add_argument]
    calls. *)
Definition CreateGroup : list action := [
  Action "columnWidths" (fun o => of_ints (opt_columnWidths o));
  Action "encoding" (fun o => of_str (opt_encoding o));
  Action "guessCellValueTypes" (fun o => of_str (opt_guessCellValueTypes o));
  Action "headerLines" (fun o => of_int (opt_headerLines o));
  Action "ignoreLines" (fun o => of_int (opt_ignoreLines o));
  Action "includeFileSources" (fun o => of_str (opt_includeFileSources o));
  Action "limit" (fun o => of_int (opt_limit o));
  Action "linesPerRow" (fun o => of_int (opt_linesPerRow o));
  Action "processQuotes" (fun o => of_str (opt_processQuotes o));
  Action "projectName" (fun o => of_str (opt_projectName o));
  Action "projectTags" (fun o => of_strs (opt_projectTags o));
  Action "recordPath" (fun o => of_strs (opt_recordPath o));
  Action "separator" (fun o => of_str (opt_separator o));
  Action "sheets" (fun o => of_ints (opt_sheets o));
  Action "skipDataLines" (fun o => of_int (opt_skipDataLines o));
  Action "storeBlankCellsAsNulls"
         (fun o => of_str (opt_storeBlankCellsAsNulls o));
  Action "storeBlankRows" (fun o => of_str (opt_storeBlankRows o));
  Action "storeEmptyStrings" (fun o => of_str (opt_storeEmptyStrings o));
  Action "trimStrings" (fun o => of_str (opt_trimStrings o))
].

(** [TemplateGroup._group_actions]. *)
Definition TemplateGroup : list action := [
  Action "mode" (fun o => of_str (opt_mode o));
  Action "prefix" (fun o => of_str (opt_prefix o));
  Action "rowSeparator" (fun o => of_str (opt_rowSeparator o));
  Action "suffix" (fun o => of_str (opt_suffix o));
  Action "filterQuery" (fun o => of_str (opt_filterQuery o));
  Action "filterColumn" (fun o => of_str (opt_filterColumn o));
  Action "facets" (fun o => of_str (opt_facets o));
  Action "splitToFiles" (fun o => of_str (opt_splitToFiles o));
  Action "suffixById" (fun o => of_str (opt_suffixById o))
].

(** *** What [main] does to the outside

    [main] itself only assigns two module globals, asks the server for
    the list of projects, prints, and calls the verbs of
    [google.refine.cli]. Each of these is an event of the run, recorded
    in the order in which it happens. The calls are taken to return: what
    a verb does, and how it may fail, is not [main]'s. *)
Inductive event : Type :=
| SetRefineHost (h : string)        (* refine.REFINE_HOST = h *)
| SetRefinePort (p : string)        (* refine.REFINE_PORT = p *)
| ListProjects                      (* Refine(RefineServer()).list_projects() *)
| Print (s : string)                (* print(s) *)
| PrintHelp                         (* parser.print_help() *)
| CliLs                             (* cli.ls() *)
| CliDownload (url : string) (output_file : option string)
| CliCreate (project_file : string) (kwargs : gmap string pyval)
| CliInfo (project_id : string)
| CliDelete (project_id : string)
| CliApply (project_id : string) (history_file : string)
| CliExport (project_id : string) (output_file : option string)
            (export_format : option string).

(** The calls into the façade [google.refine.cli]. *)
Definition is_cli_call (e : event) : bool :=
  match e with
  | CliLs | CliDownload _ _ | CliCreate _ _ | CliInfo _ | CliDelete _
  | CliApply _ _ | CliExport _ _ _ => true
  | _ => false
  end.

(** The events behind which an HTTP request to the server is sent by
    [main] itself. *)
Definition is_request (e : event) : bool :=
  match e with ListProjects => true | _ => is_cli_call e end.

(** The exceptions of [main]'s own statements. The [IndexError] of
    [idlist[0]] is caught where it is raised, so the one that can end a
    run is the read of a local variable that was never assigned. What
    [list_projects] or a verb may raise is outside this embedding: the
    statements below hold for runs in which these calls return. *)
Inductive exn : Type :=
| UnboundLocalError (var : string).

(** A computation: the events it produced, and its value or the exception
    that ended it. *)
Definition M (A : Type) : Type := list event * (A + exn).

Definition ret {A} (a : A) : M A := ([], inl a).
Definition raise {A} (e : exn) : M A := ([], inr e).
Definition emit (e : event) : M unit := ([e], inl tt).

Definition bind {A B} (k : A -> M B) (c : M A) : M B :=
  match c with
  | (tr, inl a) => let '(tr', r) := k a in ((tr ++ tr'), r)
  | (tr, inr e) => (tr, inr e)
  end.

(** With these instances [x ← c; k] and [c ;; k] sequence computations. *)
#[export] Instance M_ret : MRet M := @ret.
#[export] Instance M_bind : MBind M := @bind.

(** [for x in l: body(x)] *)
Fixpoint for_each {A} (l : list A) (body : A -> M unit) : M unit :=
  match l with
  | [] => mret tt
  | x :: l' => body x ;; for_each l' body
  end.

(** [if v: body(v)] for an attribute that is [None] or a [str]. *)
Definition if_truthy (v : option string) (body : string -> M unit) : M unit :=
  match v with
  | Some s => if truthy v then body s else mret tt
  | None => mret tt
  end.

(** How a block of statements ends: it falls through to the next
    statement with a value, or it executes [return]. *)
Inductive flow (A : Type) : Type :=
| Next (a : A)
| Return.
Arguments Next {A} a.
Arguments Return {A}.

(** The metadata of a project as [list_projects] reports it;
    [project_info['name']] is what [main] reads. *)
Record project_info : Type := { name : string }.

(** *** [# set environment] *)
Definition set_environment (o : Options) : M unit :=
  if_truthy (opt_host o) (fun h => emit (SetRefineHost h)) ;;
  if_truthy (opt_port o) (fun p => emit (SetRefinePort p)).

(** *** The messages *)

Definition found_many_msg (n : nat) (nm : string) : string :=
  "Error: Found " +:+ pretty n +:+ " projects with name " +:+ nm +:+ "."
  +:+ String "010" "Please specify project by id.".

Definition not_found_msg (nm : string) : string :=
  "Error: No project found with name " +:+ nm +:+ "."
  +:+ String "010" "Try command --list".

(** *** [# get project_id]

    [projects] is [list_projects().items()]: the pairs of the dict in its
    order. The loop collects in [idlist] the ids of the projects whose
    name is the given one. *)
Definition idlist (projects : list (string * project_info)) (nm : string)
  : list string :=
  map fst (filter (fun p => String.eqb nm (name p.2)) projects).

(** The value is the state of the local variable [project_id] after the
    block: [None] while it has never been assigned. (The loop also
    binds [project_id] to each key in turn, but every path that leaves
    the loop either assigns [idlist[0]] or returns.) *)
Definition get_project_id (projects : list (string * project_info))
           (o : Options) : M (flow (option string)) :=
  match opt_project_id o with
  | Some p =>
      if truthy (Some p) && isdigit p then mret (Next (Some p))
      else if truthy (Some p) then
        emit ListProjects ;;
        let idlist := idlist projects p in
        if (1 <? length idlist)%nat then
          emit (Print (found_many_msg (length idlist) p)) ;;
          for_each idlist (fun i => emit (Print "") ;; emit (CliInfo i)) ;;
          mret Return
        else
          match idlist with
          | i :: _ => mret (Next (Some i))
          | [] => emit (Print (not_found_msg p)) ;; mret Return
          end
      else mret (Next None)
  | None => mret (Next None)
  end.

(** Reading the local variable [project_id]. *)
Definition read_project_id (v : option string) : M string :=
  match v with
  | Some p => mret p
  | None => raise (UnboundLocalError "project_id")
  end.

(** *** The keyword arguments

    The same four statements build [kwargs] in the [--create] and in the
    [--template] branch, from the actions of the branch's group. *)
Definition arg_dict (group : list action) (o : Options)
  : list (string * pyval) :=
  map (fun a => (dest a, getattr a o)) group.

Definition build_kwargs (group : list action) (o : Options)
  : gmap string pyval :=
  let items := arg_dict group o in
  let kwargs :=
    dict_of (filter (fun kv => is_not_None kv.2
                               && negb (in_strs kv.2 ["true"; "false"]))
                    items) in
  let kwargs :=
    dict_update kwargs
      (map (fun kv => (kv.1, PyBool true))
           (filter (fun kv => eq_str kv.2 "true") items)) in
  let kwargs :=
    dict_update kwargs
      (map (fun kv => (kv.1, PyBool false))
           (filter (fun kv => eq_str kv.2 "false") items)) in
  match opt_file_format o with
  | Some f =>
      if truthy (Some f) then dict_update kwargs [("project_format", PyStr f)]
      else kwargs
  | None => kwargs
  end.

(** *** The commands *)
Definition run_command (o : Options) (project_id : option string) : M unit :=
  (* commands without args *)
  if opt_list o then emit CliLs
  else if truthy (opt_download o) then
    emit (CliDownload (default "" (opt_download o)) (opt_output o))
  else if truthy (opt_create o) then
    let kwargs := build_kwargs CreateGroup o in
    emit (CliCreate (default "" (opt_create o)) kwargs)
  (* commands with args *)
  else if opt_info o then
    p ← read_project_id project_id; emit (CliInfo p)
  else if opt_delete o then
    p ← read_project_id project_id; emit (CliDelete p)
  else if truthy (opt_apply o) then
    p ← read_project_id project_id;
    emit (CliApply p (default "" (opt_apply o)))
  else if truthy (opt_template o) then
    (* kwargs is built and the branch ends: nothing is called with it *)
    let kwargs := build_kwargs TemplateGroup o in
    mret tt
  else if opt_export o || truthy (opt_output o) then
    p ← read_project_id project_id;
    emit (CliExport p (opt_output o) (opt_file_format o))
  else emit PrintHelp.

(** *** [main]

    [projects] stands for the answer of the server to [list_projects],
    should [main] ask for it. *)
Definition main (projects : list (string * project_info)) (o : Options)
  : M unit :=
  set_environment o ;;
  r ← get_project_id projects o;
  match r with
  | Return => mret tt
  | Next project_id => run_command o project_id
  end.

(** *** Vocabulary for the statements about [main] *)

(** The branch of the chain of [if]/[elif] in [run_command] that an
    invocation takes: the selected command. *)
Inductive command : Type :=
| Ls | Download | Create | Info | Delete | Apply | Template | Export | Help.

Definition selected (o : Options) : command :=
  if opt_list o then Ls
  else if truthy (opt_download o) then Download
  else if truthy (opt_create o) then Create
  else if opt_info o then Info
  else if opt_delete o then Delete
  else if truthy (opt_apply o) then Apply
  else if truthy (opt_template o) then Template
  else if opt_export o || truthy (opt_output o) then Export
  else Help.

(** The commands that read the local variable [project_id]. *)
Definition needs_project (c : command) : bool :=
  match c with
  | Info | Delete | Apply | Export => true
  | _ => false
  end.

(** [--project_id] resolves to the project id [p]: it is given and either
    numeric, and then it is [p], or the name of exactly one project of the
    server, whose id is [p]. *)
Definition resolves_to (projects : list (string * project_info))
           (o : Options) (p : string) : Prop :=
  exists nm, opt_project_id o = Some nm /\ nm <> "" /\
    if isdigit nm then p = nm else idlist projects nm = [p].

(** The state in which the local variable [project_id] reaches the
    commands: unbound without [--project_id], bound to the project
    that [--project_id] resolves to. *)
Definition reaches_commands (projects : list (string * project_info))
           (o : Options) (v : option string) : Prop :=
  match v with
  | None => truthy (opt_project_id o) = false
  | Some p => resolves_to projects o p
  end.

(** The request that [main] sends to resolve a name. *)
Definition resolution_events (o : Options) : list event :=
  match opt_project_id o with
  | Some nm =>
      if truthy (Some nm) && negb (isdigit nm) then [ListProjects] else []
  | None => []
  end.

(** What the documentation of the create options asks of the keyword
    argument made from the value [v] of a flag: nothing for a flag left
    unset, the boolean for the strings 'true' and 'false', the value
    itself otherwise. *)
Definition kwarg_of (v : pyval) : option pyval :=
  match v with
  | PyNone => None
  | PyStr s =>
      if String.eqb s "true" then Some (PyBool true)
      else if String.eqb s "false" then Some (PyBool false)
      else Some v
  | _ => Some v
  end.

End Main.

(** ** Sample invocations on which [main] is run *)

Module Invocations.

Import Main.

(** [--project_id 1234567890123 --template "{{cells.name.value}}"
    --mode row-based --splitToFiles true] *)
Definition template_invocation : Options :=
  {| opt_host := None; opt_port := None; opt_create := None;
     opt_list := false; opt_download := None;
     opt_project_id := Some "1234567890123"; opt_delete := false;
     opt_apply := None; opt_export := false; opt_output := None;
     opt_template := Some "{{cells.name.value}}"; opt_info := false;
     opt_file_format := None; opt_columnWidths := None;
     opt_encoding := None; opt_guessCellValueTypes := None;
     opt_headerLines := None; opt_ignoreLines := None;
     opt_includeFileSources := None; opt_limit := None;
     opt_linesPerRow := None; opt_processQuotes := None;
     opt_projectName := None; opt_projectTags := None;
     opt_recordPath := None; opt_separator := None; opt_sheets := None;
     opt_skipDataLines := None; opt_storeBlankCellsAsNulls := None;
     opt_storeBlankRows := None; opt_storeEmptyStrings := None;
     opt_trimStrings := None; opt_mode := Some "row-based";
     opt_prefix := None; opt_rowSeparator := None; opt_suffix := None;
     opt_filterQuery := None; opt_filterColumn := None; opt_facets := None;
     opt_splitToFiles := Some "true"; opt_suffixById := None |}.

(** [--create duplicates.csv --format csv --encoding UTF-8
    --guessCellValueTypes true --processQuotes false --headerLines 1
    --projectTags beta] *)
Definition create_invocation : Options :=
  {| opt_host := None; opt_port := None;
     opt_create := Some "duplicates.csv"; opt_list := false;
     opt_download := None; opt_project_id := None; opt_delete := false;
     opt_apply := None; opt_export := false; opt_output := None;
     opt_template := None; opt_info := false;
     opt_file_format := Some "csv"; opt_columnWidths := None;
     opt_encoding := Some "UTF-8"; opt_guessCellValueTypes := Some "true";
     opt_headerLines := Some 1%Z; opt_ignoreLines := None;
     opt_includeFileSources := None; opt_limit := None;
     opt_linesPerRow := None; opt_processQuotes := Some "false";
     opt_projectName := None; opt_projectTags := Some ["beta"];
     opt_recordPath := None; opt_separator := None; opt_sheets := None;
     opt_skipDataLines := None; opt_storeBlankCellsAsNulls := None;
     opt_storeBlankRows := None; opt_storeEmptyStrings := None;
     opt_trimStrings := None; opt_mode := None; opt_prefix := None;
     opt_rowSeparator := None; opt_suffix := None; opt_filterQuery := None;
     opt_filterColumn := None; opt_facets := None;
     opt_splitToFiles := None; opt_suffixById := None |}.

(** [--project_id duplicates --delete] *)
Definition delete_by_name : Options :=
  {| opt_host := None; opt_port := None; opt_create := None;
     opt_list := false; opt_download := None;
     opt_project_id := Some "duplicates"; opt_delete := true;
     opt_apply := None; opt_export := false; opt_output := None;
     opt_template := None; opt_info := false; opt_file_format := None;
     opt_columnWidths := None; opt_encoding := None;
     opt_guessCellValueTypes := None; opt_headerLines := None;
     opt_ignoreLines := None; opt_includeFileSources := None;
     opt_limit := None; opt_linesPerRow := None; opt_processQuotes := None;
     opt_projectName := None; opt_projectTags := None;
     opt_recordPath := None; opt_separator := None; opt_sheets := None;
     opt_skipDataLines := None; opt_storeBlankCellsAsNulls := None;
     opt_storeBlankRows := None; opt_storeEmptyStrings := None;
     opt_trimStrings := None; opt_mode := None; opt_prefix := None;
     opt_rowSeparator := None; opt_suffix := None; opt_filterQuery := None;
     opt_filterColumn := None; opt_facets := None;
     opt_splitToFiles := None; opt_suffixById := None |}.

(** [--delete] *)
Definition delete_without_project : Options :=
  {| opt_host := None; opt_port := None; opt_create := None;
     opt_list := false; opt_download := None; opt_project_id := None;
     opt_delete := true; opt_apply := None; opt_export := false;
     opt_output := None; opt_template := None; opt_info := false;
     opt_file_format := None; opt_columnWidths := None;
     opt_encoding := None; opt_guessCellValueTypes := None;
     opt_headerLines := None; opt_ignoreLines := None;
     opt_includeFileSources := None; opt_limit := None;
     opt_linesPerRow := None; opt_processQuotes := None;
     opt_projectName := None; opt_projectTags := None;
     opt_recordPath := None; opt_separator := None; opt_sheets := None;
     opt_skipDataLines := None; opt_storeBlankCellsAsNulls := None;
     opt_storeBlankRows := None; opt_storeEmptyStrings := None;
     opt_trimStrings := None; opt_mode := None; opt_prefix := None;
     opt_rowSeparator := None; opt_suffix := None; opt_filterQuery := None;
     opt_filterColumn := None; opt_facets := None;
     opt_splitToFiles := None; opt_suffixById := None |}.

(** [--project_id 1234567890123 --output deduped.xls] *)
Definition output_by_id : Options :=
  {| opt_host := None; opt_port := None; opt_create := None;
     opt_list := false; opt_download := None;
     opt_project_id := Some "1234567890123"; opt_delete := false;
     opt_apply := None; opt_export := false;
     opt_output := Some "deduped.xls"; opt_template := None;
     opt_info := false; opt_file_format := None; opt_columnWidths := None;
     opt_encoding := None; opt_guessCellValueTypes := None;
     opt_headerLines := None; opt_ignoreLines := None;
     opt_includeFileSources := None; opt_limit := None;
     opt_linesPerRow := None; opt_processQuotes := None;
     opt_projectName := None; opt_projectTags := None;
     opt_recordPath := None; opt_separator := None; opt_sheets := None;
     opt_skipDataLines := None; opt_storeBlankCellsAsNulls := None;
     opt_storeBlankRows := None; opt_storeEmptyStrings := None;
     opt_trimStrings := None; opt_mode := None; opt_prefix := None;
     opt_rowSeparator := None; opt_suffix := None; opt_filterQuery := None;
     opt_filterColumn := None; opt_facets := None;
     opt_splitToFiles := None; opt_suffixById := None |}.

(** [--project_id duplicates --output deduped.xls] *)
Definition output_by_name : Options :=
  {| opt_host := None; opt_port := None; opt_create := None;
     opt_list := false; opt_download := None;
     opt_project_id := Some "duplicates"; opt_delete := false;
     opt_apply := None; opt_export := false;
     opt_output := Some "deduped.xls"; opt_template := None;
     opt_info := false; opt_file_format := None; opt_columnWidths := None;
     opt_encoding := None; opt_guessCellValueTypes := None;
     opt_headerLines := None; opt_ignoreLines := None;
     opt_includeFileSources := None; opt_limit := None;
     opt_linesPerRow := None; opt_processQuotes := None;
     opt_projectName := None; opt_projectTags := None;
     opt_recordPath := None; opt_separator := None; opt_sheets := None;
     opt_skipDataLines := None; opt_storeBlankCellsAsNulls := None;
     opt_storeBlankRows := None; opt_storeEmptyStrings := None;
     opt_trimStrings := None; opt_mode := None; opt_prefix := None;
     opt_rowSeparator := None; opt_suffix := None; opt_filterQuery := None;
     opt_filterColumn := None; opt_facets := None;
     opt_splitToFiles := None; opt_suffixById := None |}.

(** [--project_id duplicates] *)
Definition name_alone : Options :=
  {| opt_host := None; opt_port := None; opt_create := None;
     opt_list := false; opt_download := None;
     opt_project_id := Some "duplicates"; opt_delete := false;
     opt_apply := None; opt_export := false; opt_output := None;
     opt_template := None; opt_info := false; opt_file_format := None;
     opt_columnWidths := None; opt_encoding := None;
     opt_guessCellValueTypes := None; opt_headerLines := None;
     opt_ignoreLines := None; opt_includeFileSources := None;
     opt_limit := None; opt_linesPerRow := None; opt_processQuotes := None;
     opt_projectName := None; opt_projectTags := None;
     opt_recordPath := None; opt_separator := None; opt_sheets := None;
     opt_skipDataLines := None; opt_storeBlankCellsAsNulls := None;
     opt_storeBlankRows := None; opt_storeEmptyStrings := None;
     opt_trimStrings := None; opt_mode := None; opt_prefix := None;
     opt_rowSeparator := None; opt_suffix := None; opt_filterQuery := None;
     opt_filterColumn := None; opt_facets := None;
     opt_splitToFiles := None; opt_suffixById := None |}.

(** A server with two projects of the same name. *)
Definition two_duplicates : list (string * project_info) :=
  [("1234567890123", {| name := "duplicates" |});
   ("2345678901234", {| name := "duplicates" |});
   ("3456789012345", {| name := "christmas gifts" |})].

End Invocations.

(** ** Part II: the client library and the remote service

    [google/refine/refine.py] and the server are not part of the sources at
    hand: the test-suite shows how they are used, the specification names
    the records (project, row, facet and choice, engine) and says that all
    state lives on the server and that every record mirrors the last
    response. *)

Module Refine.

(** *** The remote service

    The server is not part of the repository at all; what follows is the
    least that the records and the testable properties of the
    specification need of it. *)

(** Modelled from the spec: a cell value of a row; [None] is an empty
    cell. *)
Definition cell : Type := option string.

(** Modelled from the spec: a row as the server stores it (its cell
    values and flags; its index is its position in the project). *)
Record Row : Type := {
  cells : list cell;
  row_flagged : bool;
  row_starred : bool
}.

(** Modelled from the spec: a project, a server-hosted dataset with a
    name, columns and rows. *)
Record Project : Type := {
  sp_name : string;
  sp_columns : list string;
  sp_rows : list Row
}.

(** Modelled from the spec: the state of the server, the projects it
    hosts by id. *)
Abbreviation Server := (gmap N Project).

(** Modelled from the spec: a text facet on a column with the choices
    selected in it, as the engine sends it to the server. *)
Record Facet : Type := {
  column : string;
  selection : list string;
  select_blank : bool
}.

(** Modelled from the spec: the value of a row in a named column. *)
Definition cell_at (p : Project) (c : string) (r : Row) : cell :=
  match list_find (fun x => x = c) (sp_columns p) with
  | Some (i, _) => default None (cells r !! i)
  | None => None
  end.

(** Modelled from the spec: a facet without any selected choice filters
    nothing; otherwise it keeps the rows whose value is a selected
    choice. *)
Definition facet_selects (f : Facet) (v : cell) : bool :=
  match selection f, select_blank f with
  | [], false => true
  | _, _ =>
      match v with
      | None => select_blank f
      | Some s => bool_decide (s ∈ selection f)
      end
  end.

(** Modelled from the spec: the engine, the active set of facets applied
    to a project's rows. *)
Definition row_passes (p : Project) (fs : list Facet) (r : Row) : bool :=
  forallb (fun f => facet_selects f (cell_at p (column f) r)) fs.

(** Modelled from the spec: the rows of a project that pass the engine,
    each with its index. *)
Definition passing_rows (p : Project) (fs : list Facet) : list (nat * Row) :=
  filter (fun ir => row_passes p fs ir.2) (imap pair (sp_rows p)).

(** Modelled from the spec: the response to a row fetch. *)
Record RowsJson : Type := {
  j_filtered : nat;
  j_total : nat;
  j_limit : nat;
  j_rows : list (nat * Row)
}.

(** Modelled from the spec: the row fetch of the server with its counts,
    the rows of the project and those of them that pass the engine. The
    rows of the answer are the first [limit] rows that pass: the
    test-suite reads the indexes 1, 2, 3, 4, 6, 12, ... off the answer
    once a choice is included. *)
Definition get_rows_request (srv : Server) (pid : N) (fs : list Facet)
           (limit : nat) : option RowsJson :=
  p ← srv !! pid;
  Some {| j_filtered := length (passing_rows p fs);
          j_total := length (sp_rows p);
          j_limit := limit;
          j_rows := take limit (passing_rows p fs) |}.

(** Modelled from the spec: the aggregation of a facet, how often each
    value occurs. *)
Definition tally (vs : list string) : gmap string nat :=
  foldr (fun v m => <[v := S (default 0 (m !! v))]> m) ∅ vs.

(** Modelled from the spec: the response for one facet, its choices with
    their counts and the count of the empty cells. *)
Record FacetJson : Type := {
  fj_name : string;
  fj_choices : list (string * nat);
  fj_blank : nat
}.

(** Modelled from the spec: the server computes a facet over the values
    that its column has in the rows passing the other facets of the
    engine. *)
Definition facet_values (p : Project) (others : list Facet) (f : Facet)
  : list cell :=
  map (cell_at p (column f))
      (filter (fun r => row_passes p others r) (sp_rows p)).

(** Modelled from the spec: the facet request of the server for one
    facet. *)
Definition compute_facet (p : Project) (others : list Facet) (f : Facet)
  : FacetJson :=
  let vs := facet_values p others f in
  {| fj_name := column f;
     fj_choices := map_to_list (tally (omap id vs));
     fj_blank := length (filter (fun v => v = None) vs) |}.

(** Modelled from the spec: the facet request of the server, one response
    per facet of the engine, in the order of the engine. *)
Definition compute_facets_request (srv : Server) (pid : N) (fs : list Facet)
  : option (list FacetJson) :=
  p ← srv !! pid;
  Some (imap (fun k f => compute_facet p (delete k fs) f) fs).

(** Modelled from the spec: the deletion request of the server, answered
    with a status code. *)
Definition delete_project_request (srv : Server) (pid : N) : Server * string :=
  match srv !! pid with
  | Some _ => (delete pid srv, "ok")
  | None => (srv, "error")
  end.

(** Modelled from the spec: the metadata of all projects, by id. *)
Definition get_all_project_metadata (srv : Server) : gmap N string :=
  sp_name <$> srv.

Section Import_.

(** The importer of the server: the repository parses no file itself,
    the server turns the uploaded bytes into a header and records, or
    refuses them. *)
Variable importer : string -> option (list string * list (list cell)).

(** Modelled from the spec: the creation request of the server; the new
    project gets an id that no hosted project has. *)
Definition create_project_request (srv : Server) (file_name content : string)
  : Server * option N :=
  match importer content with
  | Some (header, records) =>
      let pid := fresh (dom srv) in
      let p := {| sp_name := file_name;
                  sp_columns := header;
                  sp_rows := map (fun cs => Build_Row cs false false)
                                 records |} in
      (<[pid := p]> srv, Some pid)
  | None => (srv, None)
  end.

End Import_.

(** *** The client library: records that mirror the responses *)

(** Modelled from the spec: a choice of a facet; its label is its key in
    [choices]. *)
Record Choice : Type := { count : nat }.

(** Modelled from the spec: the facet of a facet response. [choices] is a
    dict by label: the lookup of a label that is no choice, a [KeyError]
    in the client, is [None]. *)
Record FacetResponse : Type := {
  name : string;
  choices : gmap string Choice;
  blank_choice : Choice
}.

(** Modelled from the spec: the response of [text_facet]. *)
Record FacetsResponse : Type := { facets : list FacetResponse }.

(** Modelled from the spec: a row of a rows response. *)
Record RefineRow : Type := {
  flagged : bool;
  starred : bool;
  index : nat;
  row : list cell
}.

(** Modelled from the spec: the response of [get_rows]. *)
Record RowsResponse : Type := {
  rows : list RefineRow;
  limit : nat;
  total : nat;
  filtered : nat
}.

(** Modelled from the spec: the facet objects of the client. A facet
    handed to an engine stays the same object: the engine holds a
    reference into this store, and [include] changes the object behind
    it. *)
Abbreviation Facets := (gmap nat Facet).

(** Modelled from the spec: the client's handle on a project, with the
    engine (references to its facets). *)
Record RefineProject : Type := {
  project_id : N;
  engine : list nat
}.

(** Modelled from the spec: [Facet(column=c)], a new facet object without
    selection. *)
Definition new_Facet (h : Facets) (c : string) : Facets * nat :=
  let r := fresh (dom h) in
  (<[r := {| column := c; selection := []; select_blank := false |}]> h, r).

(** Modelled from the spec: [facet.include(v)]. *)
Definition include (h : Facets) (r : nat) (v : string) : Facets :=
  alter (fun f => {| column := column f;
                     selection := selection f ++ [v];
                     select_blank := select_blank f |}) r h.

(** Modelled from the spec: [Engine(facet)]. *)
Definition Engine (r : nat) : list nat := [r].

(** Modelled from the spec: [engine.add_facet(facet)]. *)
Definition add_facet (e : list nat) (r : nat) : list nat := e ++ [r].

(** Modelled from the spec: [project.engine = engine]. *)
Definition set_engine (proj : RefineProject) (e : list nat) : RefineProject :=
  {| project_id := project_id proj; engine := e |}.

(** Modelled from the spec: the engine as it is sent with a request, the
    facets behind the references at the time of the request. *)
Definition engine_json (h : Facets) (e : list nat) : list Facet :=
  omap (fun r => h !! r) e.

(** Modelled from the spec: the facet response read into a record, the
    choices as a dict from label to choice. *)
Definition facet_response (j : FacetJson) : FacetResponse :=
  {| name := fj_name j;
     choices := dict_of (map (fun lc => (lc.1, {| count := lc.2 |}))
                             (fj_choices j));
     blank_choice := {| count := fj_blank j |} |}.

(** Modelled from the spec: the rows response read into records. *)
Definition rows_response (j : RowsJson) : RowsResponse :=
  {| rows := map (fun ir => {| flagged := row_flagged ir.2;
                               starred := row_starred ir.2;
                               index := ir.1;
                               row := cells ir.2 |}) (j_rows j);
     limit := j_limit j;
     total := j_total j;
     filtered := j_filtered j |}.

(** Modelled from the spec: [Refine.list_projects] of
    google/refine/refine.py, which is not among the sources; a dict from
    project id to metadata. *)
Definition list_projects (srv : Server) : gmap N string :=
  get_all_project_metadata srv.

(** Modelled from the spec: [RefineProject.delete] of
    google/refine/refine.py, which is not among the sources; true when the
    server answers ok. *)
Definition delete_ (srv : Server) (proj : RefineProject) : Server * bool :=
  let '(srv', code) := delete_project_request srv (project_id proj) in
  (srv', String.eqb code "ok").

(** Modelled from the spec: [RefineProject.get_rows] of
    google/refine/refine.py, which is not among the sources; the row fetch
    with the limit [n] under the engine of the handle. *)
Definition get_rows (srv : Server) (h : Facets) (proj : RefineProject)
           (n : nat) : option RowsResponse :=
  j ← get_rows_request srv (project_id proj) (engine_json h (engine proj)) n;
  Some (rows_response j).

(** Modelled from the spec: [RefineProject.text_facet] of
    google/refine/refine.py, which is not among the sources. With a facet
    the engine of the handle becomes that facet alone, without one the
    engine stays; the server computes the facets of the engine. *)
Definition text_facet (srv : Server) (h : Facets) (proj : RefineProject)
           (facet : option nat) : option (RefineProject * FacetsResponse) :=
  let proj' := match facet with
               | Some r => set_engine proj (Engine r)
               | None => proj
               end in
  js ← compute_facets_request srv (project_id proj')
                              (engine_json h (engine proj'));
  Some (proj', {| facets := map facet_response js |}).

Section New_project.

Variable importer : string -> option (list string * list (list cell)).

(** Modelled from the spec: [Refine.new_project] of
    google/refine/refine.py, which is not among the sources. The file is
    uploaded, and the handle is made for the id in the answer; [None] when
    no project was created. *)
Definition new_project (srv : Server) (file_name content : string)
  : option (Server * RefineProject) :=
  let '(srv', answer) :=
    create_project_request importer srv file_name content in
  pid ← answer;
  Some (srv', {| project_id := pid; engine := [] |}).

End New_project.

(** *** Vocabulary for the statements about the client *)

(** How many of the cells hold the value [l]. *)
Definition occurrences (l : string) (vs : list cell) : nat :=
  length (filter (fun v => v = Some l) vs).

(** How many of the cells are empty. *)
Definition blanks (vs : list cell) : nat :=
  length (filter (fun v => v = None) vs).

(** The values of a column of a project, row by row. *)
Definition column_values (p : Project) (c : string) : list cell :=
  map (cell_at p c) (sp_rows p).

(** A facet in which no choice is selected. *)
Definition unselected (f : Facet) : Prop :=
  selection f = [] /\ select_blank f = false.

End Refine.

(** ** Sample data on which the definitions are run *)

Module Sample.

Import Refine.

Fixpoint split_on (sep : ascii) (s : string) : list string :=
  match s with
  | EmptyString => [EmptyString]
  | String c s' =>
      if Ascii.eqb c sep then EmptyString :: split_on sep s'
      else match split_on sep s' with
           | w :: ws => String c w :: ws
           | [] => [String c EmptyString]
           end
  end.

(** An importer for comma-separated text: the first line is the header,
    an empty field an empty cell; empty content is refused. *)
Definition csv_importer (content : string)
  : option (list string * list (list cell)) :=
  if String.eqb content "" then None
  else match map (split_on ",") (split_on "010" content) with
       | header :: records =>
           Some (header,
                 map (map (fun f => if String.eqb f "" then None else Some f))
                     records)
       | [] => None
       end.

Definition nl : string := String "010" EmptyString.

(** A small file of purchases with an email column first. *)
Definition purchases_csv : string :=
  "email,name,state" +:+ nl +:+
  "danny@example.com,Danny,CA" +:+ nl +:+
  "melanie@example.edu,Melanie,NC" +:+ nl +:+
  "danny@example.com,Dan," +:+ nl +:+
  "ben@example.org,Ben,CA".

(** The project that the server makes of the purchases. *)
Definition purchases : Project :=
  {| sp_name := "purchases.csv";
     sp_columns := ["email"; "name"; "state"];
     sp_rows :=
       [Build_Row [Some "danny@example.com"; Some "Danny"; Some "CA"]
                  false false;
        Build_Row [Some "melanie@example.edu"; Some "Melanie"; Some "NC"]
                  false false;
        Build_Row [Some "danny@example.com"; Some "Dan"; None] false false;
        Build_Row [Some "ben@example.org"; Some "Ben"; Some "CA"]
                  false false] |}.

(** The server that hosts the purchases alone, and the handle of that
    project. *)
Definition purchases_server : Server := {[ 0%N := purchases ]}.

Definition purchases_project : RefineProject :=
  {| project_id := 0%N; engine := [] |}.

(** The server after the upload of the purchases to an empty server, and
    the handle of the new project. *)
Definition uploaded : option (Server * RefineProject) :=
  new_project csv_importer ∅ "purchases.csv" purchases_csv.

(** The facet store after [f = Facet(column='state')], and the reference
    [f]. *)
Definition state_facet : Facets * nat := new_Facet ∅ "state".

End Sample.

(** ** More vocabulary for the runs of [main] *)

Module Runs.

Import Main.

(** The namespace [o] with [--project_id] replaced. *)
Definition with_project_id (o : Options) (v : option string) : Options :=
  {| opt_host := opt_host o; opt_port := opt_port o;
     opt_create := opt_create o; opt_list := opt_list o;
     opt_download := opt_download o; opt_project_id := v;
     opt_delete := opt_delete o; opt_apply := opt_apply o;
     opt_export := opt_export o; opt_output := opt_output o;
     opt_template := opt_template o; opt_info := opt_info o;
     opt_file_format := opt_file_format o;
     opt_columnWidths := opt_columnWidths o; opt_encoding := opt_encoding o;
     opt_guessCellValueTypes := opt_guessCellValueTypes o;
     opt_headerLines := opt_headerLines o;
     opt_ignoreLines := opt_ignoreLines o;
     opt_includeFileSources := opt_includeFileSources o;
     opt_limit := opt_limit o; opt_linesPerRow := opt_linesPerRow o;
     opt_processQuotes := opt_processQuotes o;
     opt_projectName := opt_projectName o;
     opt_projectTags := opt_projectTags o;
     opt_recordPath := opt_recordPath o; opt_separator := opt_separator o;
     opt_sheets := opt_sheets o; opt_skipDataLines := opt_skipDataLines o;
     opt_storeBlankCellsAsNulls := opt_storeBlankCellsAsNulls o;
     opt_storeBlankRows := opt_storeBlankRows o;
     opt_storeEmptyStrings := opt_storeEmptyStrings o;
     opt_trimStrings := opt_trimStrings o; opt_mode := opt_mode o;
     opt_prefix := opt_prefix o; opt_rowSeparator := opt_rowSeparator o;
     opt_suffix := opt_suffix o; opt_filterQuery := opt_filterQuery o;
     opt_filterColumn := opt_filterColumn o; opt_facets := opt_facets o;
     opt_splitToFiles := opt_splitToFiles o;
     opt_suffixById := opt_suffixById o |}.

(** [--project_id] is a name (not empty, not numeric) that more than one
    project of the server has. *)
Definition ambiguous (projects : list (string * project_info)) (o : Options)
  : bool :=
  match opt_project_id o with
  | Some nm =>
      truthy (Some nm) && negb (isdigit nm)
      && (1 <? length (idlist projects nm))%nat
  | None => false
  end.

(** [--project_id] is a name (not empty, not numeric) that no project of
    the server has. *)
Definition unknown (projects : list (string * project_info)) (o : Options)
  : bool :=
  match opt_project_id o with
  | Some nm =>
      truthy (Some nm) && negb (isdigit nm)
      && (length (idlist projects nm) =? 0)%nat
  | None => false
  end.

(** [--project_id] is given as a name: not empty and not numeric. *)
Definition by_name (o : Options) : bool :=
  match opt_project_id o with
  | Some nm => truthy (Some nm) && negb (isdigit nm)
  | None => false
  end.

(** The assignments that [--host] and [--port] ask for. *)
Definition settings (o : Options) : list event :=
  (match opt_host o with
   | Some h => if truthy (Some h) then [SetRefineHost h] else []
   | None => []
   end)
  ++ (match opt_port o with
      | Some p => if truthy (Some p) then [SetRefinePort p] else []
      | None => []
      end).

(** The assignments to the globals of [google.refine.refine]. *)
Definition is_setting (e : event) : bool :=
  match e with
  | SetRefineHost _ | SetRefinePort _ => true
  | _ => false
  end.

(** The value of an argument declared with [choices=cs]: the parser
    leaves [None] or one of the choices. *)
Definition in_choices (v : option string) (cs : list string) : bool :=
  match v with
  | None => true
  | Some s => bool_decide (s ∈ cs)
  end.

(** The [dest]s of the create options declared with
    [choices=('true', 'false')]. *)
Definition boolean_create_options : list string :=
  ["guessCellValueTypes"; "includeFileSources"; "processQuotes";
   "storeBlankCellsAsNulls"; "storeBlankRows"; "storeEmptyStrings";
   "trimStrings"].

(** What the [choices] in the declarations of the parser leave of a
    namespace: the seven create options and the two templating options
    with the choices 'true' and 'false', and [--mode] with its two
    modes. *)
Definition parsed (o : Options) : bool :=
  in_choices (opt_guessCellValueTypes o) ["true"; "false"]
  && in_choices (opt_includeFileSources o) ["true"; "false"]
  && in_choices (opt_processQuotes o) ["true"; "false"]
  && in_choices (opt_storeBlankCellsAsNulls o) ["true"; "false"]
  && in_choices (opt_storeBlankRows o) ["true"; "false"]
  && in_choices (opt_storeEmptyStrings o) ["true"; "false"]
  && in_choices (opt_trimStrings o) ["true"; "false"]
  && in_choices (opt_mode o) ["row-based"; "record-based"]
  && in_choices (opt_splitToFiles o) ["true"; "false"]
  && in_choices (opt_suffixById o) ["true"; "false"].

(** What the create options are to become as keyword arguments, flag by
    flag and read off the namespace alone: a flag left unset gives no
    keyword argument; a string gives itself, but the strings 'true' and
    'false' the booleans; an int gives itself; a list gives itself. *)
Definition flag_str (v : option string) : option pyval :=
  match v with
  | None => None
  | Some s =>
      if String.eqb s "true" then Some (PyBool true)
      else if String.eqb s "false" then Some (PyBool false)
      else Some (PyStr s)
  end.

Definition flag_int (v : option Z) : option pyval :=
  match v with
  | None => None
  | Some z => Some (PyInt z)
  end.

Definition flag_ints (v : option (list Z)) : option pyval :=
  match v with
  | None => None
  | Some l => Some (PyList (map PyInt l))
  end.

Definition flag_strs (v : option (list string)) : option pyval :=
  match v with
  | None => None
  | Some l => Some (PyList (map PyStr l))
  end.

(** The names of the create options, as the parser declares them. *)
Definition create_options : list string :=
  ["columnWidths"; "encoding"; "guessCellValueTypes"; "headerLines";
   "ignoreLines"; "includeFileSources"; "limit"; "linesPerRow";
   "processQuotes"; "projectName"; "projectTags"; "recordPath";
   "separator"; "sheets"; "skipDataLines"; "storeBlankCellsAsNulls";
   "storeBlankRows"; "storeEmptyStrings"; "trimStrings"].

(** [--create duplicates.csv ...] as in [create_invocation], with
    [--project_id duplicates] added. *)
Definition create_with_project_name : Options :=
  with_project_id Invocations.create_invocation (Some "duplicates").

(** A server on which every project has a name of its own. *)
Definition catalogue : list (string * project_info) :=
  [("1234567890123", {| name := "duplicates" |});
   ("3456789012345", {| name := "christmas gifts" |})].

End Runs.

(** ** The fixture of the test-suite

    [RefineTestCase.setUp] and [tearDown] of [google/test/test_refine.py],
    over the client library as modelled above. *)

Module Tests.

Import Refine.

(** [PATH_TO_TEST_DATA = os.path.join('google', 'test', 'data')] *)
Definition PATH_TO_TEST_DATA : string := "google/test/data".

Section Fixture.

Variable importer : string -> option (list string * list (list cell)).

(** [setUp]: with a project file, the project is made of it ([content]
    stands for the bytes of the file); the value is the server and
    [self.project] afterwards, [None] when [new_project] raises. *)
Definition setUp (srv : Server) (project_file : option string)
           (content : string) : option (Server * option RefineProject) :=
  match project_file with
  | Some f =>
      if truthy project_file then
        sp ← new_project importer srv
                         (PATH_TO_TEST_DATA +:+ "/" +:+ f) content;
        Some (sp.1, Some sp.2)
      else Some (srv, None)
  | None => Some (srv, None)
  end.

(** [tearDown]: a project that was set up is deleted, and [self.project]
    is [None] afterwards. *)
Definition tearDown (srv : Server) (project : option RefineProject)
  : Server * option RefineProject :=
  match project with
  | Some p => ((delete_ srv p).1, None)
  | None => (srv, None)
  end.

End Fixture.

End Tests.

(** * Properties of [main] *)

Import Py Main.

Section Run.
Variable projects : list (string * project_info).
Variable o : Options.

Lemma bind_inl {A B} (tr : list event) (a : A) (k : A -> M B) :
  (mbind k ((tr, inl a) : M A)) = ((tr ++ (k a).1), (k a).2).
Proof. unfold mbind, M_bind, bind. by destruct (k a). Qed.

Lemma set_environment_ok :
  set_environment o = ((set_environment o).1, inl tt).
Proof.
  unfold set_environment, if_truthy, emit.
  destruct (opt_host o) as [h|], (opt_port o) as [p|]; simpl;
    repeat (destruct (negb _)); reflexivity.
Qed.

Lemma set_environment_quiet :
  Forall (fun e => is_request e = false /\ e <> PrintHelp)
         (set_environment o).1.
Proof.
  unfold set_environment, if_truthy, emit.
  destruct (opt_host o) as [h|], (opt_port o) as [p|]; simpl;
    repeat (destruct (negb _)); simpl; repeat constructor; done.
Qed.

Lemma for_each_info (ids : list string) :
  for_each ids (fun i => emit (Print "") ;; emit (CliInfo i))
  = (flat_map (fun i => [Print ""; CliInfo i]) ids, inl tt).
Proof.
  induction ids as [|i ids IH]; [reflexivity|].
  cbn [for_each]. rewrite IH. reflexivity.
Qed.

Lemma truthy_Some nm : truthy (Some nm) = true <-> nm <> "".
Proof.
  simpl. destruct (String.eqb_spec nm ""); simpl; split; congruence.
Qed.

Lemma get_project_id_reaches v :
  reaches_commands projects o v ->
  get_project_id projects o = (resolution_events o, inl (Next v)).
Proof.
  unfold reaches_commands, get_project_id, resolution_events.
  destruct v as [p|].
  - intros (nm & -> & Hnm & Hres).
    apply truthy_Some in Hnm. rewrite Hnm. simpl andb.
    destruct (isdigit nm); simpl.
    + by subst.
    + rewrite Hres. reflexivity.
  - destruct (opt_project_id o) as [nm|]; [|done].
    intros ->. reflexivity.
Qed.

Lemma get_project_id_ambiguous nm :
  opt_project_id o = Some nm -> nm <> "" -> isdigit nm = false ->
  1 < length (idlist projects nm) ->
  get_project_id projects o
  = (ListProjects :: Print (found_many_msg (length (idlist projects nm)) nm)
       :: flat_map (fun i => [Print ""; CliInfo i]) (idlist projects nm),
     inl Return).
Proof.
  intros Hp Hnm%truthy_Some Hd Hlen. unfold get_project_id.
  rewrite Hp, Hnm, Hd. simpl andb. cbv iota.
  destruct (Nat.ltb_spec 1 (length (idlist projects nm))); [|lia].
  rewrite for_each_info. unfold emit. rewrite !bind_inl. simpl.
  by rewrite app_nil_r.
Qed.

Lemma main_run tr v :
  get_project_id projects o = (tr, inl (Next v)) ->
  main projects o
  = (((set_environment o).1 ++ tr ++ (run_command o v).1),
     (run_command o v).2).
Proof.
  intros H. unfold main. rewrite set_environment_ok, bind_inl. simpl.
  rewrite H, bind_inl. simpl. reflexivity.
Qed.

Lemma main_return tr :
  get_project_id projects o = (tr, inl Return) ->
  main projects o = (((set_environment o).1 ++ tr), inl tt).
Proof.
  intros H. unfold main. rewrite set_environment_ok, bind_inl. simpl.
  rewrite H, bind_inl. simpl. by rewrite app_nil_r.
Qed.
End Run.

Section Dict.
Context {V : Type}.
Implicit Types (d : gmap string V) (items : list (string * V)).

Lemma dict_update_cons d k v items :
  dict_update d ((k, v) :: items) = dict_update (<[k:=v]> d) items.
Proof. reflexivity. Qed.

Lemma dict_update_notin d items k :
  k ∉ items.*1 -> dict_update d items !! k = d !! k.
Proof.
  revert d. induction items as [|[k' v'] items IH]; intros d Hk; [done|].
  cbn in Hk. apply not_elem_of_cons in Hk as [Hne Hk].
  rewrite dict_update_cons, IH by done. by apply lookup_insert_ne.
Qed.

Lemma dict_update_in d items k v :
  NoDup items.*1 -> (k, v) ∈ items -> dict_update d items !! k = Some v.
Proof.
  revert d. induction items as [|[k' v'] items IH]; intros d Hnd Hin.
  - by apply elem_of_nil in Hin.
  - cbn in Hnd. apply NoDup_cons in Hnd as [Hk' Hnd].
    rewrite dict_update_cons.
    apply elem_of_cons in Hin as [[= -> ->]|Hin].
    + rewrite dict_update_notin by done. apply lookup_insert_eq.
    + by apply IH.
Qed.

Lemma keys_functional items k v v' :
  NoDup items.*1 -> (k, v) ∈ items -> (k, v') ∈ items -> v = v'.
Proof.
  induction items as [|[k0 v0] items IH]; intros Hnd H1 H2.
  - by apply elem_of_nil in H1.
  - cbn in Hnd. apply NoDup_cons in Hnd as [Hk0 Hnd].
    apply elem_of_cons in H1 as [E1|H1]; apply elem_of_cons in H2 as [E2|H2].
    + congruence.
    + exfalso. apply Hk0. injection E1 as <- _.
      by apply (list_elem_of_fmap_2 fst _ (k, v')).
    + exfalso. apply Hk0. injection E2 as <- _.
      by apply (list_elem_of_fmap_2 fst _ (k, v)).
    + by apply IH.
Qed.

Lemma filter_keys_NoDup (P : string * V -> bool) items :
  NoDup items.*1 -> NoDup (filter P items).*1.
Proof.
  intros Hnd. eapply sublist_NoDup; [exact Hnd|].
  apply fmap_sublist, sublist_filter.
Qed.

Lemma filter_key_in (P : string * V -> bool) items k v :
  (k, v) ∈ items -> P (k, v) = true -> (k, v) ∈ filter P items.
Proof. intros Hin HP. apply list_elem_of_filter. by rewrite HP. Qed.

Lemma filter_key_notin (P : string * V -> bool) items k v :
  NoDup items.*1 -> (k, v) ∈ items -> P (k, v) = false ->
  k ∉ (filter P items).*1.
Proof.
  intros Hnd Hin HP Hk.
  apply list_elem_of_fmap in Hk as ([k' v'] & -> & Hf).
  apply list_elem_of_filter in Hf as [HP' Hin']. cbn in *.
  rewrite (keys_functional _ _ _ _ Hnd Hin Hin') in HP.
  by rewrite HP in HP'.
Qed.

Lemma filter_keys_subseteq (P : string * V -> bool) items k :
  k ∉ items.*1 -> k ∉ (filter P items).*1.
Proof.
  intros Hk Hin. apply Hk.
  apply list_elem_of_fmap in Hin as (kv & -> & Hf).
  apply list_elem_of_filter in Hf as [_ Hf].
  by apply list_elem_of_fmap_2.
Qed.
End Dict.

Section Kwargs.
Variable group : list action.
Variable o : Options.
Hypothesis group_NoDup : NoDup (dest <$> group).
Hypothesis group_no_format : "project_format" ∉ dest <$> group.

Let items := arg_dict group o.

Lemma arg_dict_keys : items.*1 = dest <$> group.
Proof.
  unfold items, arg_dict. rewrite <- list_fmap_compose.
  by apply list_fmap_ext.
Qed.

Lemma arg_dict_elem a : a ∈ group -> (dest a, getattr a o) ∈ items.
Proof.
  intros Ha. unfold items, arg_dict.
  by apply (list_elem_of_fmap_2 (fun a => (dest a, getattr a o))).
Qed.

Lemma relabel_keys (b : bool) (l : list (string * pyval)) :
  (map (fun kv => (kv.1, PyBool b)) l).*1 = l.*1.
Proof.
  change (map ?f l) with (f <$> l). rewrite <- list_fmap_compose.
  by apply list_fmap_ext.
Qed.

Lemma relabel_elem (b : bool) (l : list (string * pyval)) k v :
  (k, v) ∈ l -> (k, PyBool b) ∈ map (fun kv => (kv.1, PyBool b)) l.
Proof.
  intros Hin.
  by apply (list_elem_of_fmap_2 (fun kv => (kv.1, PyBool b)) _ (k, v)).
Qed.

(** The dict after the three statements that fill [kwargs] from the
    flags of the group. *)
Let filled : gmap string pyval :=
  dict_update
    (dict_update
       (dict_of (filter (fun kv => is_not_None kv.2
                                   && negb (in_strs kv.2 ["true"; "false"]))
                        items))
       (map (fun kv => (kv.1, PyBool true))
            (filter (fun kv => eq_str kv.2 "true") items)))
    (map (fun kv => (kv.1, PyBool false))
         (filter (fun kv => eq_str kv.2 "false") items)).

Lemma filled_notin k : k ∉ dest <$> group -> filled !! k = None.
Proof.
  rewrite <- arg_dict_keys. intros Hk. unfold filled, dict_of.
  rewrite !dict_update_notin;
    rewrite ?relabel_keys; try by apply filter_keys_subseteq.
  apply lookup_empty.
Qed.

Lemma filled_in k v : (k, v) ∈ items -> filled !! k = kwarg_of v.
Proof.
  intros Hin. pose proof group_NoDup as Hnd. rewrite <- arg_dict_keys in Hnd.
  unfold filled, dict_of.
  destruct (eq_str v "false") eqn:Hf.
  { (* the third statement stores False *)
    destruct v as [|s| | |]; try discriminate. cbn in Hf.
    apply String.eqb_eq in Hf as ->.
    erewrite dict_update_in; [reflexivity| |].
    - rewrite relabel_keys. by apply filter_keys_NoDup.
    - eapply relabel_elem, filter_key_in; [exact Hin|reflexivity]. }
  rewrite dict_update_notin
    by (rewrite relabel_keys; eapply filter_key_notin; eauto).
  destruct (eq_str v "true") eqn:Ht.
  { (* the second statement stores True *)
    destruct v as [|s| | |]; try discriminate. cbn in Ht.
    apply String.eqb_eq in Ht as ->.
    erewrite dict_update_in; [reflexivity| |].
    - rewrite relabel_keys. by apply filter_keys_NoDup.
    - eapply relabel_elem, filter_key_in; [exact Hin|reflexivity]. }
  rewrite dict_update_notin
    by (rewrite relabel_keys; eapply filter_key_notin; eauto).
  destruct (is_not_None v) eqn:Hn.
  - (* the first statement stores the value itself *)
    erewrite dict_update_in.
    + destruct v as [|s| | |]; try done. cbn in *.
      by rewrite Ht, Hf.
    + by apply filter_keys_NoDup.
    + eapply filter_key_in; [exact Hin|]. cbn.
      rewrite Hn. cbn. by rewrite Ht, Hf.
  - rewrite dict_update_notin.
    + destruct v; try discriminate. apply lookup_empty.
    + eapply filter_key_notin; eauto. cbn. by rewrite Hn.
Qed.

Lemma build_kwargs_unfold :
  build_kwargs group o
  = if truthy (opt_file_format o)
    then <["project_format" := PyStr (default "" (opt_file_format o))]> filled
    else filled.
Proof.
  unfold build_kwargs. fold items. fold filled.
  destruct (opt_file_format o) as [f|]; [|reflexivity].
  destruct (truthy (Some f)); reflexivity.
Qed.

Lemma build_kwargs_flag a :
  a ∈ group -> build_kwargs group o !! dest a = kwarg_of (getattr a o).
Proof.
  intros Ha. rewrite build_kwargs_unfold.
  assert (dest a <> "project_format") as Hne.
  { intros E. apply group_no_format. rewrite <- E.
    by apply list_elem_of_fmap_2. }
  destruct (truthy (opt_file_format o)).
  - rewrite lookup_insert_ne by done. by apply filled_in, arg_dict_elem.
  - by apply filled_in, arg_dict_elem.
Qed.

Lemma build_kwargs_format :
  build_kwargs group o !! "project_format"
  = if truthy (opt_file_format o) then PyStr <$> opt_file_format o else None.
Proof.
  rewrite build_kwargs_unfold.
  destruct (opt_file_format o) as [f|] eqn:E; cbn [truthy].
  - destruct (negb (f =? "")).
    + by rewrite lookup_insert_eq.
    + by apply filled_notin.
  - by apply filled_notin.
Qed.

Lemma build_kwargs_other k :
  k ∉ dest <$> group -> k <> "project_format" ->
  build_kwargs group o !! k = None.
Proof.
  intros Hk Hne. rewrite build_kwargs_unfold.
  destruct (truthy (opt_file_format o)).
  - rewrite lookup_insert_ne by done. by apply filled_notin.
  - by apply filled_notin.
Qed.
End Kwargs.

Lemma CreateGroup_NoDup : NoDup (dest <$> CreateGroup).
Proof. compute_done. Qed.
Lemma CreateGroup_no_format : "project_format" ∉ dest <$> CreateGroup.
Proof. compute_done. Qed.
Ltac chain_cases H :=
  unfold selected in H; unfold run_command;
  repeat match type of H with
         | context [if ?b then _ else _] => destruct b eqn:?
         end;
  try discriminate H.

Section Commands.
Variable projects : list (string * project_info).
Variable o : Options.

Lemma run_command_create v :
  selected o = Create ->
  run_command o v
  = ([CliCreate (default "" (opt_create o)) (build_kwargs CreateGroup o)],
     inl tt).
Proof. intros H. chain_cases H. reflexivity. Qed.

Lemma run_command_template v :
  selected o = Template -> run_command o v = ([], inl tt).
Proof. intros H. chain_cases H. reflexivity. Qed.

Lemma run_command_export p :
  selected o = Export ->
  run_command o (Some p)
  = ([CliExport p (opt_output o) (opt_file_format o)], inl tt).
Proof. intros H. chain_cases H. reflexivity. Qed.

Lemma run_command_help v :
  selected o = Help -> run_command o v = ([PrintHelp], inl tt).
Proof. intros H. chain_cases H. reflexivity. Qed.

Lemma run_command_unbound :
  needs_project (selected o) = true ->
  run_command o None = ([], inr (UnboundLocalError "project_id")).
Proof.
  intros H. destruct (selected o) eqn:E; try discriminate H;
    chain_cases E; reflexivity.
Qed.

Lemma idlist_spec nm i :
  i ∈ idlist projects nm
  <-> exists info, (i, info) ∈ projects /\ name info = nm.
Proof.
  unfold idlist. change (map fst ?l) with (fst <$> l).
  rewrite list_elem_of_fmap. split.
  - intros ([i' info] & -> & Hin). apply list_elem_of_filter in Hin as [Hn Hin].
    exists info. split; [done|]. cbn in Hn.
    apply Is_true_true in Hn. by apply String.eqb_eq in Hn.
  - intros (info & Hin & <-). exists (i, info). split; [done|].
    apply list_elem_of_filter. split; [|done]. cbn.
    by rewrite String.eqb_refl.
Qed.
End Commands.

Import Invocations Runs.

(** The entry of [kwargs] for the [n]-th create option, given [Hflag], the
    lookup of the entry of an action of the group. *)
Ltac flag n :=
  let E := fresh "E" in
  match goal with
  | Hflag : forall n a, CreateGroup !! n = Some a -> _ |- _ =>
      pose proof (Hflag n _ eq_refl) as E
  end;
  cbn [dest getattr] in E; rewrite E; clear E;
  match goal with
  | |- kwarg_of (_ ?x) = _ => by destruct x
  end.

Section Claims.
Variable projects : list (string * project_info).
Variable o : Options.

(** The [--template] branch ends after [kwargs] is built: whenever it is
    the selected command and the run reaches the commands, the run ends
    normally with the events of the environment and of the resolution of
    [--project_id] alone, and no verb of [google.refine.cli] is called. *)
Lemma template_branch_adds_no_event v :
  selected o = Template -> reaches_commands projects o v ->
  main projects o
  = (((set_environment o).1 ++ resolution_events o), inl tt).
Proof.
  intros Hsel Hv.
  rewrite (main_run _ _ _ _ (get_project_id_reaches _ _ _ Hv)).
  rewrite (run_command_template _ _ Hsel). simpl. by rewrite app_nil_r.
Qed.

(** C7, as amended. When [--create f] is the selected command and the
    run reaches the commands ([--project_id] is absent, numeric or the
    name of exactly one project), [main] calls [cli.create(f, **kwargs)],
    and [kwargs] holds each create option under its own name: no entry for
    an option left unset, [True] and [False] for the strings 'true' and
    'false', the value of the option otherwise. A [--format] that is given
    (and not empty) is passed under the key 'project_format'; [kwargs] has
    no other key. *)
Theorem create_passes_flags v f :
  selected o = Create -> opt_create o = Some f ->
  reaches_commands projects o v ->
  exists kwargs,
    main projects o
    = (((set_environment o).1 ++ resolution_events o
        ++ [CliCreate f kwargs]), inl tt)
    /\ kwargs !! "columnWidths" = flag_ints (opt_columnWidths o)
    /\ kwargs !! "encoding" = flag_str (opt_encoding o)
    /\ kwargs !! "guessCellValueTypes" = flag_str (opt_guessCellValueTypes o)
    /\ kwargs !! "headerLines" = flag_int (opt_headerLines o)
    /\ kwargs !! "ignoreLines" = flag_int (opt_ignoreLines o)
    /\ kwargs !! "includeFileSources" = flag_str (opt_includeFileSources o)
    /\ kwargs !! "limit" = flag_int (opt_limit o)
    /\ kwargs !! "linesPerRow" = flag_int (opt_linesPerRow o)
    /\ kwargs !! "processQuotes" = flag_str (opt_processQuotes o)
    /\ kwargs !! "projectName" = flag_str (opt_projectName o)
    /\ kwargs !! "projectTags" = flag_strs (opt_projectTags o)
    /\ kwargs !! "recordPath" = flag_strs (opt_recordPath o)
    /\ kwargs !! "separator" = flag_str (opt_separator o)
    /\ kwargs !! "sheets" = flag_ints (opt_sheets o)
    /\ kwargs !! "skipDataLines" = flag_int (opt_skipDataLines o)
    /\ kwargs !! "storeBlankCellsAsNulls"
       = flag_str (opt_storeBlankCellsAsNulls o)
    /\ kwargs !! "storeBlankRows" = flag_str (opt_storeBlankRows o)
    /\ kwargs !! "storeEmptyStrings" = flag_str (opt_storeEmptyStrings o)
    /\ kwargs !! "trimStrings" = flag_str (opt_trimStrings o)
    /\ kwargs !! "project_format"
       = (if truthy (opt_file_format o)
          then PyStr <$> opt_file_format o else None)
    /\ (forall k, k ∉ create_options -> k <> "project_format" ->
                  kwargs !! k = None).
Proof.
  intros Hsel Hf Hv. exists (build_kwargs CreateGroup o).
  assert (forall n a, CreateGroup !! n = Some a ->
                      build_kwargs CreateGroup o !! dest a
                      = kwarg_of (getattr a o)) as Hflag.
  { intros n a Ha. apply build_kwargs_flag;
      [apply CreateGroup_NoDup|apply CreateGroup_no_format|].
    by eapply list_elem_of_lookup_2. }
  split.
  { rewrite (main_run _ _ _ _ (get_project_id_reaches _ _ _ Hv)).
    rewrite (run_command_create _ _ Hsel), Hf. reflexivity. }
  split; [flag 0|].
  split; [flag 1|].
  split; [flag 2|].
  split; [flag 3|].
  split; [flag 4|].
  split; [flag 5|].
  split; [flag 6|].
  split; [flag 7|].
  split; [flag 8|].
  split; [flag 9|].
  split; [flag 10|].
  split; [flag 11|].
  split; [flag 12|].
  split; [flag 13|].
  split; [flag 14|].
  split; [flag 15|].
  split; [flag 16|].
  split; [flag 17|].
  split; [flag 18|].
  split.
  - apply build_kwargs_format;
      auto using CreateGroup_NoDup, CreateGroup_no_format.
  - intros k Hk Hne. apply build_kwargs_other;
      auto using CreateGroup_NoDup, CreateGroup_no_format.
Qed.

(** C8. When [--project_id] is a name (not empty, not all digits) that is
    the name of more than one project, [main] asks for the projects,
    prints the error, which states the number of matches in decimal and
    the name, then for each matching id an empty line and [cli.info] of
    that id, and returns: the chain of commands is never entered. The ids
    are exactly those of the projects with that name, and [cli.info] on
    them is the only call into [google.refine.cli]: nothing is created,
    deleted, changed or exported. *)
Theorem ambiguous_name_stops_main nm :
  opt_project_id o = Some nm -> nm <> "" -> isdigit nm = false ->
  1 < length (idlist projects nm) ->
  main projects o
  = (((set_environment o).1
      ++ ListProjects
         :: Print ("Error: Found " +:+ pretty (length (idlist projects nm))
                   +:+ " projects with name " +:+ nm +:+ "."
                   +:+ String "010" "Please specify project by id.")
         :: flat_map (fun i => [Print ""; CliInfo i]) (idlist projects nm)),
     inl tt)
  /\ (forall i, i ∈ idlist projects nm <->
                exists info, (i, info) ∈ projects /\ name info = nm)
  /\ (forall e, e ∈ (main projects o).1 -> is_cli_call e = true ->
                exists i, e = CliInfo i /\ i ∈ idlist projects nm).
Proof.
  intros Hp Hnm Hd Hlen.
  pose proof (main_return _ _ _
                (get_project_id_ambiguous _ _ _ Hp Hnm Hd Hlen)) as Hmain.
  unfold found_many_msg in Hmain.
  split; [exact Hmain|split; [apply idlist_spec|]].
  rewrite Hmain. cbn [fst]. intros e He Hcall.
  apply elem_of_app in He as [He|He].
  { pose proof (set_environment_quiet o) as Hq.
    rewrite Forall_forall in Hq. destruct (Hq _ He) as [Hreq _].
    destruct e; discriminate. }
  apply elem_of_cons in He as [->|He]; [discriminate|].
  apply elem_of_cons in He as [->|He]; [discriminate|].
  apply list_elem_of_In, in_flat_map in He as (i & Hi & He).
  apply list_elem_of_In in Hi.
  destruct He as [<-|[<-|[]]]; [discriminate|]. by exists i.
Qed.

(** C9. When [--project_id] is absent (or empty) and the selected command
    is one that reads the local variable [project_id] ([--info],
    [--delete], [--apply], or the export selected by [--export] or
    [--output]), [main] ends with an [UnboundLocalError] for [project_id]:
    it has sent no request, called no verb and printed no help. *)
Theorem missing_project_id_is_unbound :
  truthy (opt_project_id o) = false ->
  needs_project (selected o) = true ->
  main projects o
  = ((set_environment o).1, inr (UnboundLocalError "project_id"))
  /\ Forall (fun e => is_request e = false /\ e <> PrintHelp)
            (main projects o).1.
Proof.
  intros Hp Hsel.
  assert (main projects o
          = ((set_environment o).1, inr (UnboundLocalError "project_id")))
    as Hmain.
  { rewrite (main_run _ _ _ None (get_project_id_reaches _ _ None Hp)).
    rewrite (run_command_unbound _ Hsel). cbn [fst snd].
    unfold resolution_events.
    destruct (opt_project_id o) as [nm|]; [|by rewrite !app_nil_r].
    rewrite Hp. cbn. by rewrite !app_nil_r. }
  split; [exact Hmain|]. rewrite Hmain. apply set_environment_quiet.
Qed.

(** C10, as amended. With [--output] set, the export selected (none of
    [--list], [--download], [--create], [--info], [--delete], [--apply],
    [--template] is) and [--project_id] resolving to the project [p],
    [main] calls [cli.export] for [p] with that output file, whether or not
    [--export] was given. With no command selected, and [--project_id]
    absent, empty or numeric, [main] prints the help and sends no
    request. *)
Theorem export_by_output_and_help :
  (forall p,
      selected o = Export -> truthy (opt_output o) = true ->
      resolves_to projects o p ->
      main projects o
      = (((set_environment o).1 ++ resolution_events o
          ++ [CliExport p (opt_output o) (opt_file_format o)]),
         inl tt))
  /\ (selected o = Help ->
      (forall nm, opt_project_id o = Some nm -> nm = "" \/ isdigit nm = true) ->
      main projects o = (((set_environment o).1 ++ [PrintHelp]), inl tt)
      /\ Forall (fun e => is_request e = false) (main projects o).1).
Proof.
  split.
  - intros p Hsel _ Hres.
    rewrite (main_run _ _ _ (Some p)
               (get_project_id_reaches _ _ (Some p) Hres)).
    by rewrite (run_command_export _ _ Hsel).
  - intros Hsel Hpid.
    assert (exists v, get_project_id projects o = ([], inl (Next v)))
      as [v Hv].
    { unfold get_project_id.
      destruct (opt_project_id o) as [nm|]; [|by eexists].
      destruct (Hpid nm eq_refl) as [->|Hd]; [by eexists|].
      rewrite Hd. destruct nm; [discriminate|]. by eexists. }
    assert (main projects o
            = (((set_environment o).1 ++ [PrintHelp]), inl tt)) as Hmain.
    { rewrite (main_run _ _ _ _ Hv).
      by rewrite (run_command_help _ _ Hsel). }
    split; [exact Hmain|]. rewrite Hmain. cbn [fst].
    apply Forall_app. split.
    + eapply Forall_impl; [apply set_environment_quiet|]. by intros e [? _].
    + by repeat constructor.
Qed.
End Claims.

(** C1, at the invocation [--project_id 1234567890123 --template ...
    --mode row-based --splitToFiles true]: [--template] is the selected
    command, [kwargs] is built from the templating options, and [main]
    returns without a single event: no templating export, and no other
    verb of [google.refine.cli], is called. *)
Theorem template_branch_calls_no_verb :
  selected template_invocation = Template
  /\ build_kwargs TemplateGroup template_invocation
     = {[ "mode" := PyStr "row-based"; "splitToFiles" := PyBool true ]}
  /\ main [] template_invocation = ([], inl tt).
Proof. split; [reflexivity|split; [|reflexivity]]. by vm_compute. Qed.

(** C7 as stated fails at [--create duplicates.csv ... --project_id
    duplicates] on a server without projects: [--create] is given and is
    the selected command, but [main] prints that no project has that name
    and returns; [cli.create] is not called and no flag is passed on. *)
Lemma create_claim_counterexample :
  opt_create create_with_project_name = Some "duplicates.csv"
  /\ selected create_with_project_name = Create
  /\ main [] create_with_project_name
     = ([ListProjects; Print (not_found_msg "duplicates")], inl tt).
Proof. repeat split. Qed.

(** C7, as amended, at [--create duplicates.csv --format csv --encoding
    UTF-8 --guessCellValueTypes true --processQuotes false --headerLines 1
    --projectTags beta]. *)
Lemma create_passes_flags_witness :
  exists kwargs,
    main [] create_invocation = ([CliCreate "duplicates.csv" kwargs], inl tt)
    /\ kwargs !! "columnWidths" = None
    /\ kwargs !! "encoding" = Some (PyStr "UTF-8")
    /\ kwargs !! "guessCellValueTypes" = Some (PyBool true)
    /\ kwargs !! "headerLines" = Some (PyInt 1)
    /\ kwargs !! "ignoreLines" = None
    /\ kwargs !! "includeFileSources" = None
    /\ kwargs !! "limit" = None
    /\ kwargs !! "linesPerRow" = None
    /\ kwargs !! "processQuotes" = Some (PyBool false)
    /\ kwargs !! "projectName" = None
    /\ kwargs !! "projectTags" = Some (PyList [PyStr "beta"])
    /\ kwargs !! "recordPath" = None
    /\ kwargs !! "separator" = None
    /\ kwargs !! "sheets" = None
    /\ kwargs !! "skipDataLines" = None
    /\ kwargs !! "storeBlankCellsAsNulls" = None
    /\ kwargs !! "storeBlankRows" = None
    /\ kwargs !! "storeEmptyStrings" = None
    /\ kwargs !! "trimStrings" = None
    /\ kwargs !! "project_format" = Some (PyStr "csv")
    /\ (forall k, k ∉ create_options -> k <> "project_format" ->
                  kwargs !! k = None).
Proof.
  apply (create_passes_flags [] create_invocation None "duplicates.csv");
    reflexivity.
Defined.

(** C8 at [--project_id duplicates --delete], with two projects of that
    name on the server. *)
Lemma ambiguous_name_stops_main_witness :
  main two_duplicates delete_by_name
  = ([ListProjects;
      Print ("Error: Found 2 projects with name duplicates."
             +:+ String "010" "Please specify project by id.");
      Print ""; CliInfo "1234567890123";
      Print ""; CliInfo "2345678901234"], inl tt).
Proof.
  apply (ambiguous_name_stops_main two_duplicates delete_by_name "duplicates");
    [reflexivity | discriminate | reflexivity | vm_compute; lia].
Defined.

(** C9 at [--delete]. *)
Lemma missing_project_id_is_unbound_witness :
  main [] delete_without_project = ([], inr (UnboundLocalError "project_id")).
Proof.
  apply (missing_project_id_is_unbound [] delete_without_project); reflexivity.
Defined.

(** C10 as stated fails on a server without projects. At [--project_id
    duplicates --output deduped.xls] the export is selected by [--output],
    and [main] prints that no project has that name and returns without
    exporting. At [--project_id duplicates], no command flag and no
    [--output] are given, and [main] sends the request for the projects and
    prints the same error instead of the help. *)
Lemma output_claim_counterexample :
  (selected output_by_name = Export
   /\ opt_output output_by_name = Some "deduped.xls"
   /\ main [] output_by_name
      = ([ListProjects; Print (not_found_msg "duplicates")], inl tt))
  /\ (selected name_alone = Help
      /\ opt_output name_alone = None
      /\ main [] name_alone
         = ([ListProjects; Print (not_found_msg "duplicates")], inl tt)).
Proof. repeat split. Qed.

(** C10, as amended, at [--project_id 1234567890123 --output deduped.xls]
    and at the invocation without arguments. *)
Lemma export_by_output_and_help_witness :
  main [] output_by_id
  = ([CliExport "1234567890123" (Some "deduped.xls") None], inl tt)
  /\ main [] no_options = ([PrintHelp], inl tt).
Proof.
  split.
  - apply (proj1 (export_by_output_and_help [] output_by_id) "1234567890123");
      [reflexivity | reflexivity |].
    exists "1234567890123". repeat split. discriminate.
  - apply (proj2 (export_by_output_and_help [] no_options)); [reflexivity|].
    discriminate.
Defined.


(** * More properties of [main] *)

Section Shape.
Variable projects : list (string * project_info).
Variable o : Options.

(** The chain of commands as a table: what [run_command] does for each
    selected command. *)
Lemma run_command_table v :
  run_command o v
  = let on_project (verb : string -> event) : M unit :=
      match v with
      | Some p => ([verb p], inl tt)
      | None => ([], inr (UnboundLocalError "project_id"))
      end in
    match selected o with
    | Ls => ([CliLs], inl tt)
    | Download =>
        ([CliDownload (default "" (opt_download o)) (opt_output o)], inl tt)
    | Create =>
        ([CliCreate (default "" (opt_create o)) (build_kwargs CreateGroup o)],
         inl tt)
    | Info => on_project CliInfo
    | Delete => on_project CliDelete
    | Apply => on_project (fun p => CliApply p (default "" (opt_apply o)))
    | Template => ([], inl tt)
    | Export =>
        on_project (fun p => CliExport p (opt_output o) (opt_file_format o))
    | Help => ([PrintHelp], inl tt)
    end.
Proof.
  unfold selected, run_command.
  repeat (match goal with
          | |- context [if ?b then _ else _] => destruct b
          end; cbv beta iota; try (by destruct v)).
Qed.

(** A name that no project has ends the block with the error message and
    [return]. *)
Lemma get_project_id_unknown nm :
  opt_project_id o = Some nm -> unknown projects o = true ->
  get_project_id projects o
  = ([ListProjects; Print (not_found_msg nm)], inl Return).
Proof.
  unfold unknown, get_project_id. intros ->.
  destruct (truthy (Some nm)); [|done]. destruct (isdigit nm); [done|].
  cbn [andb negb]. intros Hlen%Nat.eqb_eq.
  destruct (idlist projects nm); [reflexivity|discriminate].
Qed.

(** The three ways in which the block [# get project_id] ends. *)
Lemma get_project_id_cases :
  (exists v, reaches_commands projects o v
             /\ ambiguous projects o = false /\ unknown projects o = false)
  \/ (exists nm, opt_project_id o = Some nm /\ nm <> "" /\ isdigit nm = false
                 /\ 1 < length (idlist projects nm)
                 /\ ambiguous projects o = true)
  \/ (exists nm, opt_project_id o = Some nm /\ unknown projects o = true).
Proof.
  unfold reaches_commands, resolves_to, ambiguous, unknown.
  destruct (opt_project_id o) as [nm|] eqn:E.
  2: { left. exists None. split; [reflexivity|split; reflexivity]. }
  destruct (truthy (Some nm)) eqn:Ht.
  2: { left. exists None. split; [reflexivity|split; reflexivity]. }
  pose proof Ht as Hnm%truthy_Some.
  destruct (isdigit nm) eqn:Hd.
  { left. exists (Some nm). split; [|done].
    exists nm. rewrite Hd. split; [done|split; [done|reflexivity]]. }
  cbn [andb negb].
  destruct (idlist projects nm) as [|i [|j ids]] eqn:Hids.
  - right; right. by exists nm.
  - left. exists (Some i). split; [|done].
    exists nm. rewrite Hd, Hids. split; [done|split; [done|reflexivity]].
  - right; left. exists nm. split; [done|split; [done|split; [done|]]].
    split; [rewrite Hids; cbn [length]; lia|done].
Qed.
End Shape.

Section Runs.
Variable projects : list (string * project_info).
Variable o : Options.

(** [# set environment] makes exactly the assignments asked for and never
    fails. *)
Lemma set_environment_settings :
  set_environment o = (settings o, inl tt).
Proof.
  unfold set_environment, settings, if_truthy, emit.
  destruct (opt_host o) as [h|], (opt_port o) as [p|]; simpl;
    repeat (destruct (negb _)); reflexivity.
Qed.

Lemma resolution_events_by_name :
  resolution_events o = if by_name o then [ListProjects] else [].
Proof. unfold resolution_events, by_name. by destruct (opt_project_id o). Qed.

Lemma get_project_id_Return tr :
  get_project_id projects o = (tr, inl Return) -> by_name o = true.
Proof.
  unfold get_project_id, by_name.
  destruct (opt_project_id o) as [nm|]; [|discriminate].
  destruct (truthy (Some nm)); [|discriminate].
  destruct (isdigit nm); [discriminate|done].
Qed.

(** Every run of [main] is of one of three kinds. *)
Lemma main_cases :
  (exists v,
      reaches_commands projects o v
      /\ ambiguous projects o = false /\ unknown projects o = false
      /\ main projects o
         = (settings o ++ resolution_events o ++ (run_command o v).1,
            (run_command o v).2))
  \/ (exists nm,
         opt_project_id o = Some nm /\ ambiguous projects o = true
         /\ by_name o = true
         /\ main projects o
            = (settings o
               ++ ListProjects
                  :: Print (found_many_msg (length (idlist projects nm)) nm)
                  :: flat_map (fun i => [Print ""; CliInfo i])
                              (idlist projects nm),
               inl tt))
  \/ (exists nm,
         opt_project_id o = Some nm /\ unknown projects o = true
         /\ by_name o = true
         /\ main projects o
            = (settings o ++ [ListProjects; Print (not_found_msg nm)],
               inl tt)).
Proof.
  pose proof set_environment_settings as Henv.
  assert ((set_environment o).1 = settings o) as Hs by by rewrite Henv.
  destruct (get_project_id_cases projects o)
    as [(v & Hv & Ha & Hu)|[(nm & Hp & Hnm & Hd & Hlen & Ha)|(nm & Hp & Hu)]].
  - left. exists v. repeat (split; [done|]).
    by rewrite (main_run _ _ _ _ (get_project_id_reaches _ _ _ Hv)), Hs.
  - right; left. exists nm.
    pose proof (get_project_id_ambiguous _ _ _ Hp Hnm Hd Hlen) as Hg.
    repeat (split; [done|]). split; [by eapply get_project_id_Return|].
    by rewrite (main_return _ _ _ Hg), Hs.
  - right; right. exists nm.
    pose proof (get_project_id_unknown _ _ _ Hp Hu) as Hg.
    repeat (split; [done|]). split; [by eapply get_project_id_Return|].
    by rewrite (main_return _ _ _ Hg), Hs.
Qed.

End Runs.

Section Extras.
Variable projects : list (string * project_info).
Variable o : Options.

Lemma reaches_commands_bound v :
  reaches_commands projects o v ->
  truthy (opt_project_id o) = match v with Some _ => true | None => false end.
Proof.
  destruct v as [p|]; [|done].
  intros (nm & -> & Hnm & _). by apply truthy_Some.
Qed.

Lemma by_name_truthy : by_name o = true -> truthy (opt_project_id o) = true.
Proof.
  unfold by_name. destruct (opt_project_id o) as [nm|]; [|done].
  by intros [? _]%andb_prop.
Qed.

(** X1. On a run in which the calls that [main] makes return, [main] reads
    the local variable [project_id] before it was ever assigned, and so
    ends with the [UnboundLocalError] for it, exactly when [--project_id]
    is absent or empty and the selected command reads [project_id]. *)
Theorem main_raises_iff :
  (main projects o).2 = inr (UnboundLocalError "project_id")
  <-> truthy (opt_project_id o) = false
      /\ needs_project (selected o) = true.
Proof.
  cut (forall e, (main projects o).2 = inr e
                 <-> e = UnboundLocalError "project_id"
                     /\ truthy (opt_project_id o) = false
                     /\ needs_project (selected o) = true).
  { intros H. rewrite H. clear H. split; [by intros (_ & ? & ?)|done]. }
  intros e.
  destruct (main_cases projects o)
    as [(v & Hv & _ & _ & ->)|[(nm & _ & _ & Hn & ->)|(nm & _ & _ & Hn & ->)]].
  - cbn [snd]. rewrite run_command_table, (reaches_commands_bound _ Hv).
    destruct (selected o), v; cbn; split;
      try (intros [= <-]); try (intros (-> & ? & ?)); try done.
  - apply by_name_truthy in Hn. cbn [snd]. split; [done|].
    intros (_ & ? & _). congruence.
  - apply by_name_truthy in Hn. cbn [snd]. split; [done|].
    intros (_ & ? & _). congruence.
Qed.



(** X4. A name that exactly one project has stands for the id of that
    project: when the id [p] is numeric, the run with the name is the run
    with [--project_id p] with the one request for the projects put after
    the settings, and it ends the same way. The id is that of a project
    of the server with that name. *)
Theorem name_is_synonym_of_id nm p :
  opt_project_id o = Some nm -> nm <> "" -> isdigit nm = false ->
  idlist projects nm = [p] -> isdigit p = true ->
  exists rest r,
    main projects (with_project_id o (Some p)) = (settings o ++ rest, r)
    /\ main projects o = (settings o ++ ListProjects :: rest, r)
    /\ (exists info, (p, info) ∈ projects /\ name info = nm).
Proof.
  intros Hp Hnm Hd Hids Hdp.
  assert (reaches_commands projects o (Some p)) as Hv.
  { exists nm. by rewrite Hd, Hids. }
  assert (reaches_commands projects (with_project_id o (Some p)) (Some p))
    as Hv'.
  { exists p. cbn. rewrite Hdp. repeat split. by destruct p. }
  exists (run_command o (Some p)).1, (run_command o (Some p)).2.
  rewrite (main_run _ _ _ _ (get_project_id_reaches _ _ _ Hv)).
  rewrite (main_run _ _ _ _ (get_project_id_reaches _ _ _ Hv')).
  rewrite !set_environment_settings. unfold resolution_events.
  rewrite Hp. cbn [opt_project_id with_project_id].
  apply truthy_Some in Hnm. rewrite Hnm, Hd, Hdp.
  replace (truthy (Some p)) with true by (by destruct p).
  cbn [andb negb fst app]. split; [done|split; [done|]].
  apply idlist_spec. rewrite Hids. apply list_elem_of_here.
Qed.

Lemma reaches_commands_unique v v' :
  reaches_commands projects o v -> reaches_commands projects o v' -> v = v'.
Proof.
  intros H%get_project_id_reaches H'%get_project_id_reaches.
  rewrite H in H'. by injection H'.
Qed.

Lemma reaches_commands_not_stopped v :
  reaches_commands projects o v ->
  ambiguous projects o = false /\ unknown projects o = false.
Proof.
  destruct (get_project_id_cases projects o)
    as [(_ & _ & Ha & Hu)|[(nm & Hp & Hnm & Hd & Hlen & _)|(nm & Hp & Hu)]];
    [done| |]; intros Hv%get_project_id_reaches.
  - by rewrite (get_project_id_ambiguous _ _ _ Hp Hnm Hd Hlen) in Hv.
  - by rewrite (get_project_id_unknown _ _ _ Hp Hu) in Hv.
Qed.

Lemma settings_elem e : e ∈ settings o -> is_setting e = true.
Proof.
  unfold settings. destruct (opt_host o), (opt_port o); cbn;
    repeat (destruct (negb _)); cbn;
    rewrite ?elem_of_cons, ?elem_of_nil; intros H; by destruct_or!; subst.
Qed.

Lemma resolution_events_elem e : e ∈ resolution_events o -> e = ListProjects.
Proof.
  rewrite resolution_events_by_name. destruct (by_name o).
  - by intros ->%list_elem_of_singleton.
  - by intros ?%elem_of_nil.
Qed.

(** A verb other than [cli.info] is called in a run exactly when the run
    reaches the commands and the selected command calls it. *)
Lemma main_verb_elem e :
  is_cli_call e = true -> (forall i, e <> CliInfo i) ->
  e ∈ (main projects o).1
  <-> exists v, reaches_commands projects o v /\ e ∈ (run_command o v).1.
Proof.
  intros Hcall Hinfo.
  destruct (main_cases projects o)
    as [(v & Hv & _ & _ & ->)|[(nm & _ & Ha & _ & ->)|(nm & _ & Hu & _ & ->)]];
    cbn [fst].
  - rewrite !elem_of_app. split.
    + intros [He%settings_elem|[->%resolution_events_elem|He]].
      * by destruct e.
      * done.
      * by exists v.
    + intros (v' & Hv' & He).
      rewrite (reaches_commands_unique _ _ Hv Hv'). auto.
  - split.
    + rewrite elem_of_app, !elem_of_cons.
      intros [He%settings_elem|[->|[->|He]]]; try done; [by destruct e|].
      apply list_elem_of_In, in_flat_map in He as (i & _ & [<-|[<-|[]]]);
        [done|by destruct (Hinfo i)].
    + intros (v & [Ha' _]%reaches_commands_not_stopped & _). congruence.
  - split.
    + rewrite elem_of_app, !elem_of_cons, elem_of_nil.
      intros [He%settings_elem|[->|[->|[]]]]; try done. by destruct e.
    + intros (v & [_ Hu']%reaches_commands_not_stopped & _). congruence.
Qed.

(** X5. [cli.delete], [cli.apply] and [cli.export] are called for a
    project [p] exactly when their command is the selected one and
    [--project_id] resolves to [p]; [cli.apply] then gets the file of
    [--apply], [cli.export] the values of [--output] and [--format]. So
    nothing is deleted, changed or exported on a run in which another
    command is selected or the project is not resolved. *)
Theorem project_verbs_iff p :
  (CliDelete p ∈ (main projects o).1
   <-> selected o = Delete /\ resolves_to projects o p)
  /\ (forall f, CliApply p f ∈ (main projects o).1
                <-> selected o = Apply /\ opt_apply o = Some f
                    /\ resolves_to projects o p)
  /\ (forall out fmt, CliExport p out fmt ∈ (main projects o).1
                      <-> selected o = Export /\ out = opt_output o
                          /\ fmt = opt_file_format o
                          /\ resolves_to projects o p).
Proof.
  split; [|split; [intros f|intros out fmt]];
    (rewrite main_verb_elem by done); split.
  - intros (v & Hv & He). rewrite run_command_table in He.
    destruct (selected o), v as [q|]; cbn in He;
      try (by apply elem_of_nil in He);
      apply list_elem_of_singleton in He; try discriminate.
    by injection He as ->.
  - intros [Hsel Hp]. exists (Some p). split; [done|].
    rewrite run_command_table, Hsel. apply list_elem_of_here.
  - intros (v & Hv & He). rewrite run_command_table in He.
    unfold selected in *.
    repeat (match type of He with
            | context [if ?b then _ else _] => destruct b eqn:?
            end; cbv beta iota in He);
      destruct v as [q|]; cbn in He;
      try (by apply elem_of_nil in He);
      apply list_elem_of_singleton in He; try discriminate.
    injection He as -> ->. split; [done|split; [|done]].
    destruct (opt_apply o); [done|discriminate].
  - intros (Hsel & Hf & Hp). exists (Some p). split; [done|].
    rewrite run_command_table, Hsel, Hf. apply list_elem_of_here.
  - intros (v & Hv & He). rewrite run_command_table in He.
    destruct (selected o), v as [q|]; cbn in He;
      try (by apply elem_of_nil in He);
      apply list_elem_of_singleton in He; try discriminate.
    by injection He as -> -> ->.
  - intros (Hsel & -> & -> & Hp). exists (Some p). split; [done|].
    rewrite run_command_table, Hsel. apply list_elem_of_here.
Qed.

Lemma settings_no_call : filter is_cli_call (settings o) = [].
Proof.
  unfold settings. destruct (opt_host o), (opt_port o); cbn;
    by repeat (destruct (negb _)).
Qed.

(** X7. Unless [--project_id] is a name shared by several projects, a run
    of [main] calls at most one verb of [google.refine.cli], however many
    command flags are given. *)
Theorem at_most_one_verb :
  ambiguous projects o = false ->
  length (filter is_cli_call (main projects o).1) <= 1.
Proof.
  intros Ha.
  destruct (main_cases projects o)
    as [(v & _ & _ & _ & ->)|[(nm & _ & Ha' & _)|(nm & _ & _ & _ & ->)]];
    [|congruence|]; cbn [fst]; rewrite !filter_app, settings_no_call.
  - rewrite resolution_events_by_name, run_command_table.
    destruct (by_name o), (selected o), v; simpl; lia.
  - simpl. lia.
Qed.

(** X8. Every run of [main] starts with the assignments asked for by
    [--host] and [--port]; then, exactly when [--project_id] is a name,
    comes the one request for the projects; nothing after that is an
    assignment or another such request. So the host and the port are set
    before anything is sent. *)
Theorem run_shape :
  exists rest,
    (main projects o).1
    = settings o ++ (if by_name o then [ListProjects] else []) ++ rest
    /\ Forall (fun e => is_setting e = false /\ e <> ListProjects) rest.
Proof.
  destruct (main_cases projects o)
    as [(v & _ & _ & _ & ->)|[(nm & _ & _ & -> & ->)|(nm & _ & _ & -> & ->)]];
    cbn [fst].
  - exists (run_command o v).1. rewrite resolution_events_by_name.
    split; [done|]. rewrite run_command_table.
    destruct (selected o), v; by repeat constructor.
  - eexists. split; [reflexivity|]. constructor; [done|].
    apply Forall_forall. intros e He.
    apply list_elem_of_In, in_flat_map in He as (i & _ & [<-|[<-|[]]]); done.
  - eexists. split; [reflexivity|]. by repeat constructor.
Qed.

(** X9. The help is printed exactly when no command is selected and the
    run is not stopped by a name that is ambiguous or unknown. *)
Theorem help_iff :
  PrintHelp ∈ (main projects o).1
  <-> selected o = Help
      /\ ambiguous projects o = false /\ unknown projects o = false.
Proof.
  destruct (main_cases projects o)
    as [(v & _ & Ha & Hu & ->)|[(nm & _ & Ha & _ & ->)|(nm & _ & Hu & _ & ->)]];
    cbn [fst].
  - rewrite !elem_of_app, run_command_table. split.
    + intros [He%settings_elem|[He%resolution_events_elem|He]]; try done.
      destruct (selected o), v; cbn in He;
        try (by apply elem_of_nil in He);
        apply list_elem_of_singleton in He; done.
    + intros (-> & _). right; right. apply list_elem_of_here.
  - split; [|intros (_ & ? & _); congruence].
    rewrite elem_of_app, !elem_of_cons.
    intros [He%settings_elem|[?|[?|He]]]; try done.
    apply list_elem_of_In, in_flat_map in He as (i & _ & [?|[?|[]]]); done.
  - split; [|intros (_ & _ & ?); congruence].
    rewrite elem_of_app, !elem_of_cons, elem_of_nil.
    intros [He%settings_elem|[?|[?|[]]]]; done.
Qed.

End Extras.

Section Idlist.
Variable projects : list (string * project_info).

(** X14. The ids that the loop collects for a name come in the order of the
    answer of the server, none twice when the keys of the answer are
    distinct, and there are as many as projects with that name. *)
Theorem idlist_in_server_order nm :
  idlist projects nm `sublist_of` projects.*1
  /\ (NoDup projects.*1 -> NoDup (idlist projects nm))
  /\ length (idlist projects nm)
     = length (filter (fun pi => name pi.2 = nm) projects).
Proof.
  unfold idlist. change (map fst ?l) with (l.*1).
  split; [apply fmap_sublist, sublist_filter|split].
  - intros Hnd. eapply sublist_NoDup; [exact Hnd|].
    apply fmap_sublist, sublist_filter.
  - rewrite length_fmap. induction projects as [|[i info] ps IH]; [done|].
    rewrite !filter_cons. cbn [snd].
    destruct (String.eqb_spec nm (name info)) as [->|Hne].
    + rewrite decide_True by exact I. rewrite decide_True by done.
      cbn [length]. by rewrite IH.
    + rewrite decide_False by (by intros []).
      rewrite decide_False by congruence. done.
Qed.
End Idlist.

Section KwargsInvariant.
Variable o : Options.

(** What becomes a keyword argument is never [None] and never one of the
    strings 'true' and 'false'. *)
Lemma kwarg_of_Some x v :
  kwarg_of x = Some v ->
  v <> PyNone /\ eq_str v "true" = false /\ eq_str v "false" = false.
Proof.
  destruct x as [|s| | |]; cbn; try (by intros [= <-]).
  destruct (String.eqb_spec s "true"); [by intros [= <-]|].
  destruct (String.eqb_spec s "false"); [by intros [= <-]|].
  intros [= <-]. cbn. repeat split; [done| |]; by apply String.eqb_neq.
Qed.

(** X12. For a group of actions with distinct [dest]s, none of them
    'project_format': every entry of [kwargs] is either the entry
    'project_format' with the string of [--format] (also when that string
    is 'true' or 'false'), or stands under the [dest] of an action of the
    group with a value that is not one of the strings 'true' and 'false';
    and no value is [None]. *)
Theorem kwargs_values (group : list action) k v :
  NoDup (dest <$> group) -> "project_format" ∉ dest <$> group ->
  build_kwargs group o !! k = Some v ->
  v <> PyNone
  /\ (k = "project_format" /\ v = PyStr (default "" (opt_file_format o))
      \/ exists a, a ∈ group /\ k = dest a
                   /\ eq_str v "true" = false /\ eq_str v "false" = false).
Proof.
  intros Hnd Hfmt Hk.
  destruct (decide (k ∈ dest <$> group)) as [Hin|Hnin].
  - apply list_elem_of_fmap in Hin as (a & -> & Ha).
    rewrite build_kwargs_flag in Hk by done.
    apply kwarg_of_Some in Hk as (? & ? & ?). split; [done|]. right.
    by exists a.
  - destruct (decide (k = "project_format")) as [->|Hne].
    + rewrite build_kwargs_format in Hk by done.
      destruct (opt_file_format o) as [f|]; [|done].
      destruct (truthy (Some f)); [|done].
      injection Hk as <-. split; [done|]. by left.
    + by rewrite build_kwargs_other in Hk.
Qed.

Lemma in_true_false (v : option string) :
  in_choices v ["true"; "false"] = true ->
  kwarg_of (of_str v) = None
  \/ exists b, kwarg_of (of_str v) = Some (PyBool b).
Proof.
  destruct v as [s|]; [|by left]. cbn. intros Hs%bool_decide_eq_true.
  right. apply elem_of_cons in Hs as [->|Hs]; [by exists true|].
  apply list_elem_of_singleton in Hs as ->. by exists false.
Qed.

(** X13. On a namespace that respects the [choices] of the parser, each of
    the seven create options declared with the choices 'true' and 'false'
    reaches [cli.create] as a boolean, or not at all. *)
Theorem parsed_booleans k :
  parsed o = true -> k ∈ boolean_create_options ->
  build_kwargs CreateGroup o !! k = None
  \/ exists b, build_kwargs CreateGroup o !! k = Some (PyBool b).
Proof.
  unfold parsed. intros Hp Hk.
  repeat (apply andb_prop in Hp as [Hp ?]).
  assert (forall n a, CreateGroup !! n = Some a ->
                      build_kwargs CreateGroup o !! dest a
                      = kwarg_of (getattr a o)) as Hflag.
  { intros n a Ha. apply build_kwargs_flag;
      [apply CreateGroup_NoDup|apply CreateGroup_no_format|].
    by eapply list_elem_of_lookup_2. }
  unfold boolean_create_options in Hk.
  repeat (apply elem_of_cons in Hk as [->|Hk]);
    [pose proof (Hflag 2 _ eq_refl) as E | pose proof (Hflag 5 _ eq_refl) as E
     | pose proof (Hflag 8 _ eq_refl) as E
     | pose proof (Hflag 15 _ eq_refl) as E
     | pose proof (Hflag 16 _ eq_refl) as E
     | pose proof (Hflag 17 _ eq_refl) as E
     | pose proof (Hflag 18 _ eq_refl) as E | by apply elem_of_nil in Hk];
    cbn [dest getattr] in E; rewrite E; by apply in_true_false.
Qed.

End KwargsInvariant.

Section FreeVerbs.
Variable projects : list (string * project_info).
Variable o : Options.

(** X6. [cli.ls], [cli.download] and [cli.create] are called exactly when
    their command is the selected one and the run is not stopped by a
    [--project_id] that is an ambiguous or unknown name; [cli.download]
    then gets the url and the value of [--output], [cli.create] the file
    and the keyword arguments built from the create options. *)
Theorem free_verbs_iff :
  (CliLs ∈ (main projects o).1
   <-> selected o = Ls
       /\ ambiguous projects o = false /\ unknown projects o = false)
  /\ (forall url out,
         CliDownload url out ∈ (main projects o).1
         <-> selected o = Download /\ opt_download o = Some url
             /\ out = opt_output o
             /\ ambiguous projects o = false /\ unknown projects o = false)
  /\ (forall f kwargs,
         CliCreate f kwargs ∈ (main projects o).1
         <-> selected o = Create /\ opt_create o = Some f
             /\ kwargs = build_kwargs CreateGroup o
             /\ ambiguous projects o = false /\ unknown projects o = false).
Proof.
  assert (forall v, reaches_commands projects o v ->
                    ambiguous projects o = false
                    /\ unknown projects o = false) as Hstop
    by apply reaches_commands_not_stopped.
  assert (ambiguous projects o = false -> unknown projects o = false ->
          exists v, reaches_commands projects o v) as Hgo.
  { intros Ha Hu.
    destruct (get_project_id_cases projects o)
      as [(v & Hv & _)|[(nm & _ & _ & _ & _ & ?)|(nm & _ & ?)]];
      [by exists v|congruence|congruence]. }
  split; [|split; [intros url out|intros f kwargs]];
    (rewrite main_verb_elem by done); split.
  - intros (v & Hv & He). rewrite run_command_table in He.
    split; [|by eapply Hstop].
    destruct (selected o), v as [q|]; cbn in He;
      try (by apply elem_of_nil in He);
      apply list_elem_of_singleton in He; done.
  - intros (Hsel & Ha & Hu). destruct (Hgo Ha Hu) as [v Hv].
    exists v. split; [done|].
    rewrite run_command_table, Hsel. apply list_elem_of_here.
  - intros (v & Hv & He). rewrite run_command_table in He.
    destruct (Hstop _ Hv) as [Ha Hu]. unfold selected in *.
    repeat (match type of He with
            | context [if ?b then _ else _] => destruct b eqn:?
            end; cbv beta iota in He);
      destruct v as [q|]; cbn in He;
      try (by apply elem_of_nil in He);
      apply list_elem_of_singleton in He; try discriminate;
      injection He as -> ->; (split; [done|split; [|done]]);
      by destruct (opt_download o).
  - intros (Hsel & Hf & -> & Ha & Hu). destruct (Hgo Ha Hu) as [v Hv].
    exists v. split; [done|].
    rewrite run_command_table, Hsel, Hf. apply list_elem_of_here.
  - intros (v & Hv & He). rewrite run_command_table in He.
    destruct (Hstop _ Hv) as [Ha Hu]. unfold selected in *.
    repeat (match type of He with
            | context [if ?b then _ else _] => destruct b eqn:?
            end; cbv beta iota in He);
      destruct v as [q|]; cbn in He;
      try (by apply elem_of_nil in He);
      apply list_elem_of_singleton in He; try discriminate;
      injection He as -> ->; (split; [done|split; [|done]]);
      by destruct (opt_create o).
  - intros (Hsel & Hf & -> & Ha & Hu). destruct (Hgo Ha Hu) as [v Hv].
    exists v. split; [done|].
    rewrite run_command_table, Hsel, Hf. apply list_elem_of_here.
Qed.

End FreeVerbs.


(** [main_raises_iff] at a sample invocation. *)
Lemma main_raises_iff_witness :
  (main [] delete_without_project).2 = inr (UnboundLocalError "project_id").
Proof.
  apply (proj2 (main_raises_iff [] delete_without_project)).
  split; reflexivity.
Defined.



(** [name_is_synonym_of_id] at a sample invocation. *)
Lemma name_is_synonym_of_id_witness :
  exists rest r,
    main catalogue (with_project_id delete_by_name (Some "1234567890123"))
    = (settings delete_by_name ++ rest, r)
    /\ main catalogue delete_by_name
       = (settings delete_by_name ++ ListProjects :: rest, r)
    /\ (exists info, ("1234567890123", info) ∈ catalogue
                     /\ name info = "duplicates").
Proof.
  apply (name_is_synonym_of_id catalogue delete_by_name "duplicates"
           "1234567890123");
    [reflexivity | discriminate | reflexivity | reflexivity | reflexivity].
Defined.

(** [project_verbs_iff] at a sample invocation. *)
Lemma project_verbs_iff_witness :
  CliDelete "1234567890123" ∈ (main catalogue delete_by_name).1.
Proof.
  apply (proj2 (proj1 (project_verbs_iff catalogue delete_by_name
                         "1234567890123"))).
  split; [reflexivity|]. exists "duplicates".
  split; [reflexivity|split; [discriminate|reflexivity]].
Defined.

(** [at_most_one_verb] at a sample invocation. *)
Lemma at_most_one_verb_witness :
  length (filter is_cli_call (main catalogue delete_by_name).1) <= 1.
Proof. apply (at_most_one_verb catalogue delete_by_name). reflexivity. Defined.

(** [help_iff] at a sample invocation. *)
Lemma help_iff_witness : PrintHelp ∈ (main [] no_options).1.
Proof.
  apply (proj2 (help_iff [] no_options)).
  split; [reflexivity|split; reflexivity].
Defined.

(** [kwargs_values] at a sample invocation. *)
Lemma kwargs_values_witness :
  PyStr "UTF-8" <> PyNone
  /\ ("encoding" = "project_format"
      /\ PyStr "UTF-8" = PyStr (default "" (opt_file_format create_invocation))
      \/ exists a, a ∈ CreateGroup /\ "encoding" = dest a
                   /\ eq_str (PyStr "UTF-8") "true" = false
                   /\ eq_str (PyStr "UTF-8") "false" = false).
Proof.
  apply (kwargs_values create_invocation CreateGroup "encoding"
           (PyStr "UTF-8"));
    [compute_done | compute_done | vm_compute; reflexivity].
Defined.

(** [parsed_booleans] at a sample invocation. *)
Lemma parsed_booleans_witness :
  build_kwargs CreateGroup create_invocation !! "processQuotes" = None
  \/ exists b, build_kwargs CreateGroup create_invocation !! "processQuotes"
               = Some (PyBool b).
Proof.
  apply (parsed_booleans create_invocation "processQuotes");
    [reflexivity | compute_done].
Defined.

(** [idlist_in_server_order] at a sample invocation. *)
Lemma idlist_in_server_order_witness :
  NoDup (idlist two_duplicates "duplicates").
Proof.
  apply (proj1 (proj2 (idlist_in_server_order two_duplicates "duplicates"))).
  compute_done.
Defined.

(** [free_verbs_iff] at a sample invocation. *)
Lemma free_verbs_iff_witness :
  CliCreate "duplicates.csv" (build_kwargs CreateGroup create_invocation)
  ∈ (main [] create_invocation).1.
Proof.
  apply (proj2 (proj2 (proj2 (free_verbs_iff [] create_invocation))
                  "duplicates.csv" _)).
  split; [reflexivity|split; [reflexivity|]].
  split; [reflexivity|split; reflexivity].
Defined.

Section Messages.
Variable projects : list (string * project_info).
Variable o : Options.

(** X10. One of the [print(...)] statements of [main] is executed exactly
    when [--project_id] is a name that is ambiguous or unknown. (The help,
    which [parser.print_help()] prints, is another event.) *)
Theorem prints_iff :
  (exists s, Print s ∈ (main projects o).1)
  <-> ambiguous projects o = true \/ unknown projects o = true.
Proof.
  destruct (main_cases projects o)
    as [(v & _ & Ha & Hu & ->)|[(nm & _ & Ha & _ & ->)|(nm & _ & Hu & _ & ->)]];
    cbn [fst].
  - split; [|intros [?|?]; congruence].
    intros (s & He). exfalso. revert He.
    rewrite !elem_of_app, run_command_table.
    intros [He%settings_elem|[He%resolution_events_elem|He]]; try done.
    destruct (selected o), v; cbn in He;
      try (by apply elem_of_nil in He);
      apply list_elem_of_singleton in He; done.
  - split; [by left|]. intros _. eexists.
    apply elem_of_app. right. apply list_elem_of_further, list_elem_of_here.
  - split; [by right|]. intros _. eexists.
    apply elem_of_app. right. apply list_elem_of_further, list_elem_of_here.
Qed.

(** X11. [cli.info] is called for the id [i] in two cases only: [--info]
    is the selected command and [--project_id] resolves to [i], or
    [--project_id] is an ambiguous name and [i] is the id of one of the
    projects with that name. *)
Theorem info_iff i :
  CliInfo i ∈ (main projects o).1
  <-> (selected o = Info /\ resolves_to projects o i)
      \/ (ambiguous projects o = true
          /\ exists nm, opt_project_id o = Some nm
                        /\ i ∈ idlist projects nm).
Proof.
  destruct (main_cases projects o)
    as [(v & Hv & Ha & Hu & ->)
       |[(nm & Hp & Ha & _ & ->)|(nm & Hp & Hu & _ & ->)]];
    cbn [fst].
  - rewrite !elem_of_app, run_command_table. split.
    + intros [He%settings_elem|[He%resolution_events_elem|He]]; try done.
      left. destruct (selected o), v as [q|]; cbn in He;
        try (by apply elem_of_nil in He);
        apply list_elem_of_singleton in He; try discriminate.
      by injection He as ->.
    + intros [[Hsel Hi]|[? _]]; [|congruence].
      rewrite (reaches_commands_unique _ _ v (Some i) Hv Hi), Hsel.
      right; right. apply list_elem_of_here.
  - assert (forall p, ~ resolves_to projects o p) as Hno.
    { intros p Hr.
      destruct (reaches_commands_not_stopped _ _ (Some p) Hr). congruence. }
    rewrite elem_of_app, !elem_of_cons. split.
    + intros [He%settings_elem|[?|[?|He]]]; try done.
      right. split; [done|]. exists nm. split; [done|].
      apply list_elem_of_In, in_flat_map in He as (j & Hj & [?|[[= ->]|[]]]);
        [done|]. by apply list_elem_of_In.
    + intros [[_ Hr]|(_ & nm' & Hp' & Hi)]; [by destruct (Hno i)|].
      rewrite Hp in Hp'. injection Hp' as <-.
      right; right; right. apply list_elem_of_In, in_flat_map.
      exists i. split; [by apply list_elem_of_In|]. right. by left.
  - assert (forall p, ~ resolves_to projects o p) as Hno.
    { intros p Hr.
      destruct (reaches_commands_not_stopped _ _ (Some p) Hr). congruence. }
    assert (ambiguous projects o = false) as Ha.
    { unfold ambiguous, unknown in *. destruct (opt_project_id o); [|done].
      destruct (truthy _), (isdigit _); try done. cbn in *.
      apply Nat.eqb_eq in Hu. by rewrite Hu. }
    rewrite elem_of_app, !elem_of_cons, elem_of_nil. split.
    + intros [He%settings_elem|[?|[?|[]]]]; done.
    + intros [[_ Hr]|[? _]]; [by destruct (Hno i)|congruence].
Qed.

End Messages.

(** [prints_iff] at a sample invocation. *)
Lemma prints_iff_witness :
  exists s, Print s ∈ (main two_duplicates delete_by_name).1.
Proof.
  apply (proj2 (prints_iff two_duplicates delete_by_name)). left. reflexivity.
Defined.

(** [info_iff] at a sample invocation. *)
Lemma info_iff_witness :
  CliInfo "2345678901234" ∈ (main two_duplicates delete_by_name).1.
Proof.
  apply (proj2 (info_iff two_duplicates delete_by_name "2345678901234")).
  right. split; [reflexivity|]. exists "duplicates".
  split; [reflexivity|]. vm_compute.
  apply list_elem_of_further, list_elem_of_here.
Defined.

(** * Properties of the client library *)

Import Refine.

Section Aggregation.

Lemma tally_cons v vs :
  tally (v :: vs) = <[v := S (default 0 (tally vs !! v))]> (tally vs).
Proof. reflexivity. Qed.

Lemma tally_lookup (vs : list string) (l : string) :
  tally vs !! l
  = match length (filter (fun v => v = l) vs) with
    | 0 => None
    | S n => Some (S n)
    end.
Proof.
  induction vs as [|v vs IH]; [done|].
  rewrite tally_cons, filter_cons. destruct (decide (v = l)) as [->|Hne].
  - rewrite lookup_insert_eq, IH. cbn [length].
    by destruct (length (filter (fun v => v = l) vs)).
  - by rewrite lookup_insert_ne.
Qed.

Lemma occurrences_omap (vs : list cell) (l : string) :
  length (filter (fun v => v = l) (omap id vs)) = occurrences l vs.
Proof.
  unfold occurrences. induction vs as [|[v|] vs IH]; [done| |].
  - change (omap id (Some v :: vs)) with (v :: omap id vs).
    rewrite !filter_cons. destruct (decide (v = l)) as [->|Hne].
    + rewrite decide_True by done. cbn [length]. by rewrite IH.
    + rewrite decide_False by congruence. done.
  - change (omap id (None :: vs)) with (omap id vs).
    rewrite filter_cons, decide_False by done. done.
Qed.

(** The dict that the client makes of the choices of a response holds
    exactly the counts of the server's aggregation. *)
Lemma choices_of_tally (m : gmap string nat) (l : string) :
  dict_of (map (fun lc => (lc.1, {| count := lc.2 |})) (map_to_list m)) !! l
  = Build_Choice <$> m !! l.
Proof.
  set (g := fun lc : string * nat => (lc.1, {| count := lc.2 |})).
  assert ((map g (map_to_list m)).*1 = (map_to_list m).*1) as Hkeys.
  { change (map g ?x) with (g <$> x). rewrite <- list_fmap_compose.
    by apply list_fmap_ext. }
  unfold dict_of. destruct (m !! l) as [n|] eqn:E.
  - apply dict_update_in.
    + rewrite Hkeys. apply NoDup_fst_map_to_list.
    + apply (list_elem_of_fmap_2 g _ (l, n)). by apply elem_of_map_to_list.
  - rewrite dict_update_notin; [apply lookup_empty|].
    rewrite Hkeys. intros Hin.
    apply list_elem_of_fmap in Hin as ([l' n] & -> & Hin).
    apply elem_of_map_to_list in Hin. cbn in E. congruence.
Qed.

Lemma compute_facet_choice p others f l :
  choices (facet_response (compute_facet p others f)) !! l
  = match occurrences l (facet_values p others f) with
    | 0 => None
    | S n => Some {| count := S n |}
    end.
Proof.
  unfold facet_response, compute_facet. cbn [choices fj_choices].
  rewrite choices_of_tally, tally_lookup, occurrences_omap.
  by destruct (occurrences l (facet_values p others f)).
Qed.

End Aggregation.

Section Rows.
Variable p : Project.

Lemma filter_cons_bool {A} (Q : A -> bool) (x : A) (l : list A) :
  filter Q (x :: l) = if Q x then x :: filter Q l else filter Q l.
Proof. rewrite filter_cons. by destruct (Q x). Qed.

Lemma filter_indexed {A} (Q : A -> bool) (f : nat -> nat) (l : list A) :
  (filter (fun ir => Q ir.2) (imap (fun i r => (f i, r)) l)).*2 = filter Q l.
Proof.
  revert f. induction l as [|x l IH]; intros f; [done|].
  rewrite imap_cons, !filter_cons. cbn [snd].
  change (imap ((fun i r => (f i, r)) ∘ S) l)
    with (imap (fun i r => ((f ∘ S) i, r)) l).
  destruct (decide (Q x)); cbn; by rewrite IH.
Qed.

Lemma passing_rows_length fs :
  length (passing_rows p fs)
  = length (filter (fun r => row_passes p fs r) (sp_rows p)).
Proof.
  unfold passing_rows.
  rewrite <- (filter_indexed (row_passes p fs) id (sp_rows p)).
  by rewrite length_fmap.
Qed.

Lemma unselected_passes fs r :
  Forall unselected fs -> row_passes p fs r = true.
Proof.
  unfold row_passes. induction 1 as [|f fs [Hs Hb] _ IH]; [done|].
  cbn [forallb]. rewrite IH, andb_true_r.
  unfold facet_selects. by rewrite Hs, Hb.
Qed.

Lemma filter_unselected fs (rs : list Row) :
  Forall unselected fs -> filter (fun r => row_passes p fs r) rs = rs.
Proof.
  intros Hfs. induction rs as [|r rs IH]; [done|].
  rewrite filter_cons_True by (by rewrite unselected_passes).
  by rewrite IH.
Qed.

Lemma row_passes_snoc fs g r :
  row_passes p (fs ++ [g]) r
  = row_passes p fs r && facet_selects g (cell_at p (column g) r).
Proof.
  unfold row_passes. rewrite forallb_app. cbn [forallb].
  by rewrite andb_true_r.
Qed.

(** Under an engine whose last facet selects the one choice [l], the rows
    that pass are those that pass the facets before it and hold [l] in the
    column of the last facet. *)
Lemma passing_one_choice fs c l (rs : list Row) :
  length (filter (fun r => row_passes p
                             (fs ++ [{| column := c; selection := [l];
                                        select_blank := false |}]) r) rs)
  = occurrences l (map (cell_at p c)
                       (filter (fun r => row_passes p fs r) rs)).
Proof.
  unfold occurrences. induction rs as [|r rs IH]; [done|].
  rewrite !filter_cons_bool, row_passes_snoc. cbn [column].
  destruct (row_passes p fs r); cbn [andb]; [|exact IH].
  cbn [map]. rewrite filter_cons.
  unfold facet_selects. cbn [selection select_blank].
  destruct (cell_at p c r) as [s|].
  - case_bool_decide as Hin; case_decide as Heq; cbn [length];
      rewrite ?IH; try done; exfalso.
    + apply Heq. f_equal. by apply list_elem_of_singleton.
    + apply Hin. injection Heq as ->. by apply list_elem_of_singleton.
  - by rewrite decide_False.
Qed.

End Rows.

Section Store.

Lemma engine_json_new_facet (h : Facets) (e : list nat) c l :
  Forall (fun r => is_Some (h !! r)) e ->
  engine_json (include (new_Facet h c).1 (new_Facet h c).2 l)
              (add_facet e (new_Facet h c).2)
  = engine_json h e
    ++ [{| column := c; selection := [l]; select_blank := false |}].
Proof.
  intros He. unfold new_Facet, add_facet, engine_json, include. cbn [fst snd].
  set (r := fresh (dom h)).
  assert (h !! r = None) as Hr by apply not_elem_of_dom, is_fresh.
  rewrite omap_app. f_equal.
  - apply list_omap_ext.
    induction He as [|r' e [f Hf] _ IH]; constructor; [|done].
    rewrite lookup_alter_ne, lookup_insert_ne; congruence.
  - csimpl. by rewrite lookup_alter_eq, lookup_insert_eq.
Qed.

End Store.

Section Client.
Variable srv : Server.
Variable h : Facets.
Variable proj : RefineProject.
Variable p : Project.
Hypothesis hosted : srv !! project_id proj = Some p.

Lemma facet_values_alone f :
  facet_values p [] f = column_values p (column f).
Proof.
  unfold facet_values, column_values. by rewrite filter_unselected.
Qed.

(** C3. For a project that the server hosts: [text_facet(facet)] answers
    with one facet, named after the column, in which every label that
    occurs in the column is a choice whose count is the number of rows
    holding it (and no other label is a choice), and whose blank choice
    counts the rows with an empty cell. And after a new facet is added to
    the engine of the handle and the choice [l] is included in it, the
    facet is the last of the response of [text_facet()], and the filtered
    count of [get_rows] is the count of the choice [l] in it; when [l] is
    no choice of the facet, no row passes and the filtered count is 0. *)
Theorem text_facet_counts :
  (forall r f,
      h !! r = Some f ->
      exists fr,
        text_facet srv h proj (Some r)
        = Some (set_engine proj (Engine r), {| facets := [fr] |})
        /\ name fr = column f
        /\ (forall l,
               choices fr !! l
               = match occurrences l (column_values p (column f)) with
                 | 0 => None
                 | S n => Some {| count := S n |}
                 end)
        /\ count (blank_choice fr) = blanks (column_values p (column f)))
  /\ (forall c l n h1 r,
         Forall (fun r => is_Some (h !! r)) (engine proj) ->
         new_Facet h c = (h1, r) ->
         let proj1 := set_engine proj (add_facet (engine proj) r) in
         let h2 := include h1 r l in
         exists resp fr rr,
           text_facet srv h2 proj1 None = Some (proj1, resp)
           /\ last (facets resp) = Some fr
           /\ name fr = c
           /\ get_rows srv h2 proj1 n = Some rr
           /\ (forall ch, choices fr !! l = Some ch -> filtered rr = count ch)
           /\ (choices fr !! l = None -> filtered rr = 0)).
Proof using hosted.
  split.
  - intros r f Hr. exists (facet_response (compute_facet p [] f)).
    split; [|split; [done|split]].
    + unfold text_facet, compute_facets_request, set_engine, Engine.
      cbn [project_id engine]. rewrite hosted. csimpl.
      unfold engine_json. csimpl. by rewrite Hr.
    + intros l. by rewrite compute_facet_choice, facet_values_alone.
    + cbn. by rewrite facet_values_alone.
  - intros c l n h1 r He Hnew proj1 h2.
    set (g := {| column := c; selection := [l]; select_blank := false |}).
    set (fs := engine_json h (engine proj)).
    assert (engine_json h2 (engine proj1) = fs ++ [g]) as Hjson.
    { unfold h2, proj1. cbn [engine set_engine].
      replace h1 with (new_Facet h c).1 by by rewrite Hnew.
      replace r with (new_Facet h c).2 by by rewrite Hnew.
      by apply engine_json_new_facet. }
    exists {| facets :=
                map facet_response
                    (imap (fun k f => compute_facet p (delete k (fs ++ [g])) f)
                          (fs ++ [g])) |},
           (facet_response (compute_facet p fs g)),
           (rows_response
              {| j_filtered := length (passing_rows p (fs ++ [g]));
                 j_total := length (sp_rows p);
                 j_limit := n;
                 j_rows := take n (passing_rows p (fs ++ [g])) |}).
    assert (filtered
              (rows_response
                 {| j_filtered := length (passing_rows p (fs ++ [g]));
                    j_total := length (sp_rows p);
                    j_limit := n;
                    j_rows := take n (passing_rows p (fs ++ [g])) |})
            = occurrences l (facet_values p fs g)) as Hfiltered.
    { cbn [filtered rows_response j_filtered].
      rewrite passing_rows_length. apply passing_one_choice. }
    split; [|split; [|split; [done|split; [|split]]]].
    + unfold text_facet, compute_facets_request.
      replace (project_id proj1) with (project_id proj) by done.
      by rewrite hosted, Hjson.
    + cbn [facets]. rewrite imap_app, map_app. cbn [imap map].
      rewrite last_snoc. do 2 f_equal.
      rewrite Nat.add_0_r. by rewrite delete_middle, app_nil_r.
    + unfold get_rows, get_rows_request.
      replace (project_id proj1) with (project_id proj) by done.
      by rewrite hosted, Hjson.
    + intros ch. rewrite Hfiltered, compute_facet_choice.
      destruct (occurrences l (facet_values p fs g)); [done|].
      by intros [= <-].
    + rewrite Hfiltered, compute_facet_choice.
      by destruct (occurrences l (facet_values p fs g)).
Qed.

End Client.

Section Projects.
Variable importer : string -> option (list string * list (list cell)).
Variable srv : Server.

Lemma new_project_accepted file_name content header records :
  importer content = Some (header, records) ->
  let pid := fresh (dom srv) in
  let srv' :=
    <[pid := {| sp_name := file_name; sp_columns := header;
                sp_rows := map (fun cs => Build_Row cs false false) records |}]>
      srv in
  new_project importer srv file_name content
  = Some (srv', {| project_id := pid; engine := [] |}).
Proof.
  intros Himp pid srv'. unfold new_project, create_project_request.
  by rewrite Himp.
Qed.

(** C4. For every file that the importer of the server accepts,
    [new_project] yields a handle, on a project that the server did not
    host before, and [list_projects] on the server after the upload holds
    that project, under the name of the file; the other entries are those
    of before. *)
Theorem new_project_is_listed file_name content :
  is_Some (importer content) ->
  exists srv' proj,
    new_project importer srv file_name content = Some (srv', proj)
    /\ srv !! project_id proj = None
    /\ list_projects srv' !! project_id proj = Some file_name
    /\ (forall pid, pid <> project_id proj ->
                    list_projects srv' !! pid = list_projects srv !! pid).
Proof.
  intros [[header records] Himp].
  eexists _, _. split; [by apply new_project_accepted|].
  cbn [project_id]. unfold list_projects, get_all_project_metadata.
  split; [apply not_elem_of_dom, is_fresh|split].
  - by rewrite lookup_fmap, lookup_insert_eq.
  - intros pid Hne. by rewrite !lookup_fmap, lookup_insert_ne.
Qed.

(** C5. For a project that the server hosts, [delete()] returns [True],
    and [list_projects] on the server after the deletion has no entry for
    the project; the other entries stay. *)
Theorem delete_removes_project proj p :
  srv !! project_id proj = Some p ->
  exists srv',
    delete_ srv proj = (srv', true)
    /\ list_projects srv' !! project_id proj = None
    /\ (forall pid, pid <> project_id proj ->
                    list_projects srv' !! pid = list_projects srv !! pid).
Proof.
  intros Hp. exists (delete (project_id proj) srv).
  unfold delete_, delete_project_request, list_projects,
    get_all_project_metadata.
  rewrite Hp. split; [done|split].
  - by rewrite lookup_fmap, lookup_delete_eq.
  - intros pid Hne. by rewrite !lookup_fmap, lookup_delete_ne.
Qed.

End Projects.

Import Sample.

(** The upload of the purchases to an empty server gives the server and
    the handle of the samples. *)
Lemma uploaded_purchases :
  uploaded = Some (purchases_server, purchases_project).
Proof. vm_compute. reflexivity. Qed.

(** C3 on the purchases: the facet on the state counts CA twice, has no
    choice TX, and counts one empty cell; and after a facet on the email
    is added to the engine made of that facet and danny@example.com is
    included, that choice has the count 2 and the filtered count is 2. *)
Lemma text_facet_counts_witness :
  (exists fr,
      text_facet purchases_server state_facet.1 purchases_project
                 (Some state_facet.2)
      = Some (set_engine purchases_project (Engine state_facet.2),
              {| facets := [fr] |})
      /\ name fr = "state"
      /\ choices fr !! "CA" = Some {| count := 2 |}
      /\ choices fr !! "TX" = None
      /\ count (blank_choice fr) = 1)
  /\ (exists h1 r resp fr rr,
         new_Facet state_facet.1 "email" = (h1, r)
         /\ text_facet purchases_server (include h1 r "danny@example.com")
               (set_engine purchases_project
                           (add_facet (Engine state_facet.2) r)) None
            = Some (set_engine purchases_project
                               (add_facet (Engine state_facet.2) r), resp)
         /\ last (facets resp) = Some fr
         /\ choices fr !! "danny@example.com" = Some {| count := 2 |}
         /\ get_rows purchases_server (include h1 r "danny@example.com")
               (set_engine purchases_project
                           (add_facet (Engine state_facet.2) r)) 10
            = Some rr
         /\ filtered rr = 2).
Proof.
  split.
  - destruct (text_facet_counts purchases_server state_facet.1
                purchases_project purchases eq_refl) as [A _].
    destruct (A state_facet.2
                {| column := "state"; selection := []; select_blank := false |}
                eq_refl) as (fr & H1 & H2 & H3 & H4).
    exists fr. split; [exact H1|]. split; [exact H2|].
    split; [exact (H3 "CA")|]. split; [exact (H3 "TX")|exact H4].
  - destruct (text_facet_counts purchases_server state_facet.1
                (set_engine purchases_project (Engine state_facet.2))
                purchases eq_refl) as [_ B].
    destruct (B "email" "danny@example.com" 10
                (new_Facet state_facet.1 "email").1
                (new_Facet state_facet.1 "email").2)
      as (resp & fr & rr & H1 & H2 & _ & H4 & H5 & _).
    + repeat constructor. vm_compute. eauto.
    + reflexivity.
    + assert (choices fr !! "danny@example.com" = Some {| count := 2 |})
        as Hchoice.
      { pose proof H1 as H1'. vm_compute in H1'. injection H1' as <-.
        vm_compute in H2. injection H2 as <-. reflexivity. }
      exists (new_Facet state_facet.1 "email").1,
             (new_Facet state_facet.1 "email").2, resp, fr, rr.
      split; [reflexivity|]. split; [exact H1|]. split; [exact H2|].
      split; [exact Hchoice|]. split; [exact H4|].
      exact (H5 _ Hchoice).
Defined.

(** C4 at the upload of the purchases to an empty server. *)
Lemma new_project_is_listed_witness :
  exists srv' proj,
    new_project csv_importer ∅ "purchases.csv" purchases_csv
    = Some (srv', proj)
    /\ (∅ : Server) !! project_id proj = None
    /\ list_projects srv' !! project_id proj = Some "purchases.csv"
    /\ (forall pid, pid <> project_id proj ->
                    list_projects srv' !! pid
                    = list_projects (∅ : Server) !! pid).
Proof.
  apply (new_project_is_listed csv_importer ∅ "purchases.csv" purchases_csv).
  vm_compute. eauto.
Defined.

(** C5 at the server that hosts the purchases. *)
Lemma delete_removes_project_witness :
  exists srv',
    delete_ purchases_server purchases_project = (srv', true)
    /\ list_projects srv' !! project_id purchases_project = None
    /\ (forall pid, pid <> project_id purchases_project ->
                    list_projects srv' !! pid
                    = list_projects purchases_server !! pid).
Proof.
  apply (delete_removes_project purchases_server purchases_project purchases).
  reflexivity.
Defined.

(** * The fixture of the test-suite *)

Import Tests.

Section FixtureFacts.
Variable importer : string -> option (list string * list (list cell)).
Variable srv : Server.

(** X15. The fixture of the test-suite leaves the server as it found it:
    when the importer accepts the project file (or the test case has
    none), [setUp] succeeds, and [tearDown] on its result gives back the
    server of before with no project held. With a project file the
    project held between the two is a new one that [list_projects]
    shows. *)
Theorem setUp_tearDown project_file content :
  (truthy project_file = true -> is_Some (importer content)) ->
  exists srv' project,
    setUp importer srv project_file content = Some (srv', project)
    /\ tearDown srv' project = (srv, None)
    /\ (truthy project_file = true ->
        exists proj, project = Some proj
                     /\ srv !! project_id proj = None
                     /\ is_Some (list_projects srv' !! project_id proj))
    /\ (truthy project_file = false -> srv' = srv /\ project = None).
Proof.
  intros Hacc. unfold setUp.
  destruct project_file as [f|]; [|by eexists _, _].
  destruct (truthy (Some f)) eqn:Ht; [|by eexists _, _].
  destruct (Hacc eq_refl) as [[header records] Himp].
  rewrite (new_project_accepted importer srv _ _ _ _ Himp). csimpl.
  eexists _, _. split; [reflexivity|].
  assert (srv !! fresh (dom srv) = None) as Hfresh
    by apply not_elem_of_dom, is_fresh.
  split; [|split; [|done]].
  - unfold tearDown, delete_, delete_project_request. cbn [project_id].
    rewrite lookup_insert_eq. cbn [fst]. by rewrite delete_insert_id.
  - intros _. eexists. split; [reflexivity|]. cbn [project_id].
    split; [done|]. unfold list_projects, get_all_project_metadata.
    by rewrite lookup_fmap, lookup_insert_eq.
Qed.

End FixtureFacts.

(** [setUp_tearDown] at a sample invocation. *)
Lemma setUp_tearDown_witness :
  exists srv' project,
    setUp csv_importer purchases_server (Some "purchases.csv") purchases_csv
    = Some (srv', project)
    /\ tearDown srv' project = (purchases_server, None)
    /\ (truthy (Some "purchases.csv") = true ->
        exists proj, project = Some proj
                     /\ purchases_server !! project_id proj = None
                     /\ is_Some (list_projects srv' !! project_id proj))
    /\ (truthy (Some "purchases.csv") = false ->
        srv' = purchases_server /\ project = None).
Proof.
  apply (setUp_tearDown csv_importer purchases_server (Some "purchases.csv")
           purchases_csv).
  intros _. vm_compute. eauto.
Defined.
